(** * NAMASTE-v1: terminology mapping core

    A shallow embedding of the scoring, mapping-creation, suggestion,
    validation and translation code of the NAMASTE to ICD-11 mapping API,
    with the properties its specification states about them.

    Conventions of the model.
    - A JavaScript string is a [string]: the sequence of its code units,
      restricted to the code units below 256 (the Latin-1 range).
      [toLowerCase] and the whitespace class of [/\s+/] are the ECMAScript
      ones on that range.
    - A JavaScript number is an exact rational [Q]; binary64 rounding and
      NaN are not modelled.
    - [null] and [undefined] are [None].
    - A table of the relational store is the list of its rows in the order
      the store returns them; [WHERE col = v] is equality of strings, and a
      DECIMAL column holds the number it was given.  *)

From Stdlib Require Import String Ascii List Bool Arith ZArith QArith Qminmax Qround Qabs Sorted Lia.
Import ListNotations.

Set Implicit Arguments.

(* ================================================================== *)
(** ** JavaScript strings *)

Module Js.

Local Open Scope nat_scope.

(** Code units matched by [\s] below 256: TAB, LF, VT, FF, CR, SPACE, NBSP. *)
Definition isSpace (c : ascii) : bool :=
  let n := nat_of_ascii c in
  ((9 <=? n) && (n <=? 13)) || (n =? 32) || (n =? 160).

(** [String.prototype.toLowerCase] on one code unit below 256:
    A-Z and U+00C0..U+00DE except U+00D7 move up by 32. *)
Definition lowerChar (c : ascii) : ascii :=
  let n := nat_of_ascii c in
  if ((65 <=? n) && (n <=? 90))
     || ((192 <=? n) && (n <=? 222) && negb (n =? 215))
  then ascii_of_nat (n + 32) else c.

Fixpoint toLowerCase (s : string) : string :=
  match s with
  | EmptyString => EmptyString
  | String c s' => String (lowerChar c) (toLowerCase s')
  end.

(** [s.startsWith(p)] *)
Fixpoint startsWith (s p : string) : bool :=
  match p, s with
  | EmptyString, _ => true
  | String _ _, EmptyString => false
  | String a p', String b s' => Ascii.eqb a b && startsWith s' p'
  end.

(** [s.includes(p)] *)
Fixpoint includes (s p : string) : bool :=
  startsWith s p ||
  match s with
  | EmptyString => false
  | String _ s' => includes s' p
  end.

(** [s.split(/\s+/)], scanning left to right: [tok] is the piece being
    read and [inRun] tells that the previous code unit was whitespace.
    A leading or trailing run of whitespace yields an empty first or last
    piece, and the empty string yields one empty piece. *)
Fixpoint splitWsFrom (s tok : string) (inRun : bool) : list string :=
  match s with
  | EmptyString => [tok]
  | String c s' =>
      if isSpace c then
        if inRun then splitWsFrom s' tok true
        else tok :: splitWsFrom s' EmptyString true
      else splitWsFrom s' (tok ++ String c EmptyString)%string false
  end.

Definition splitWs (s : string) : list string :=
  splitWsFrom s EmptyString false.

(** [s.split(' ')]: every single space separates two pieces. *)
Fixpoint splitSpaceFrom (s tok : string) : list string :=
  match s with
  | EmptyString => [tok]
  | String c s' =>
      if Ascii.eqb c " "%char then tok :: splitSpaceFrom s' EmptyString
      else splitSpaceFrom s' (tok ++ String c EmptyString)%string
  end.

Definition splitSpace (s : string) : list string :=
  splitSpaceFrom s EmptyString.

(** Truthiness of a value that is a string, [null] or [undefined]. *)
Definition truthy (v : option string) : bool :=
  match v with
  | Some (String _ _) => true
  | _ => false
  end.

Definition isWordChar (c : ascii) : bool :=
  let n := nat_of_ascii c in
  ((48 <=? n) && (n <=? 57)) || ((65 <=? n) && (n <=? 90))
  || ((97 <=? n) && (n <=? 122)) || (n =? 95).

End Js.

(* ================================================================== *)
(** ** The relevance scorer, in its two copies *)

Module SearchController.

Import Js.
Open Scope Q_scope.

(** [calculateRelevanceScore(query, text)] of the search controller. *)
Definition calculateRelevanceScore (query text : option string) : Q :=
  match query, text with
  | Some q, Some t =>
      if negb (truthy query) || negb (truthy text) then 0
      else
        let queryLower := toLowerCase q in
        let textLower := toLowerCase t in
        if String.eqb textLower queryLower then 1.0
        else if startsWith textLower queryLower then 0.9
        else if includes textLower queryLower then 0.7
        else
          let queryWords := splitWs queryLower in
          let textWords := splitWs textLower in
          let matchingWords :=
            filter (fun word =>
                      existsb (fun textWord => includes textWord word)
                              textWords)
                   queryWords in
          Qmax 0.3
               (inject_Z (Z.of_nat (length matchingWords))
                / inject_Z (Z.of_nat (length queryWords)) * 0.6)
  | _, _ => 0
  end.

End SearchController.

Module NamasteService.

Import Js.
Open Scope Q_scope.

(** What a call to the scorer does: it returns a number, or the [RegExp]
    constructor throws on a query that is not a well-formed pattern. *)
Inductive outcome : Type :=
| Returns (score : Q)
| ThrowsSyntaxError.

Section Scorer.

(** [new RegExp(source, 'i').test(subject)] of the host engine;
    [None] when the constructor rejects [source]. *)
Variable regexTest : string -> string -> option bool.

(** The pattern source built by the template literal
    [`\\b${queryLower}\\b`]. *)
Definition wholeWordPattern (queryLower : string) : string :=
  ("\b" ++ queryLower ++ "\b")%string.

(** [calculateRelevanceScore(query, text)] of the NAMASTE service. *)
Definition calculateRelevanceScore (query text : option string) : outcome :=
  match query, text with
  | Some q, Some t =>
      if negb (truthy query) || negb (truthy text) then Returns 0
      else
        let queryLower := toLowerCase q in
        let textLower := toLowerCase t in
        if String.eqb textLower queryLower then Returns 1.0
        else if startsWith textLower queryLower then Returns 0.9
        else
          match regexTest (wholeWordPattern queryLower) textLower with
          | None => ThrowsSyntaxError
          | Some true => Returns 0.8
          | Some false =>
              if includes textLower queryLower then Returns 0.7
              else
                let queryWords := splitWs queryLower in
                let textWords := splitWs textLower in
                let matchingWords :=
                  filter (fun word =>
                            existsb (fun textWord => includes textWord word)
                                    textWords)
                         queryWords in
                Returns
                  (Qmax 0.3
                        (inject_Z (Z.of_nat (length matchingWords))
                         / inject_Z (Z.of_nat (length queryWords)) * 0.6))
          end
  | _, _ => Returns 0
  end.

End Scorer.

(** The engine on the patterns [\b<literal>\b] whose literal is made of
    lower-case ASCII letters, digits, underscores and spaces: such a
    pattern is well formed and, under the flag [i], matches where the
    literal occurs in the lower-cased subject between two word boundaries.
    Other patterns are outside this fragment. *)
Definition literalChar (c : ascii) : bool :=
  let n := nat_of_ascii c in
  ((48 <=? n)%nat && (n <=? 57)%nat) || ((97 <=? n)%nat && (n <=? 122)%nat)
  || (n =? 95)%nat || (n =? 32)%nat.

Fixpoint allChars (p : ascii -> bool) (s : string) : bool :=
  match s with
  | EmptyString => true
  | String c s' => p c && allChars p s'
  end.

(** Last code unit of [lit] when it is not empty, else [prev]. *)
Fixpoint lastChar (prev : option ascii) (lit : string) : option ascii :=
  match lit with
  | EmptyString => prev
  | String c lit' => lastChar (Some c) lit'
  end.

Definition wordAt (c : option ascii) : bool :=
  match c with
  | Some a => isWordChar a
  | None => false
  end.

(** The code unit of [s] after a prefix of the length of [lit]. *)
Fixpoint charAfter (s lit : string) : option ascii :=
  match lit, s with
  | EmptyString, EmptyString => None
  | EmptyString, String c _ => Some c
  | String _ lit', String _ s' => charAfter s' lit'
  | String _ _, EmptyString => None
  end.

(** [\b] holds between two code units when exactly one is a word
    character; the ends of the subject count as non-word. *)
Definition boundary (before after : option ascii) : bool :=
  xorb (wordAt before) (wordAt after).

Definition firstChar (s : string) : option ascii :=
  match s with
  | EmptyString => None
  | String c _ => Some c
  end.

(** Does [\b lit \b] match in [s] at the current position, [prev] being
    the code unit before it? *)
Definition matchHere (prev : option ascii) (s lit : string) : bool :=
  startsWith s lit
  && boundary prev (firstChar s)
  && boundary (lastChar prev lit) (charAfter s lit).

Fixpoint matchFrom (prev : option ascii) (s lit : string) : bool :=
  matchHere prev s lit ||
  match s with
  | EmptyString => false
  | String c s' => matchFrom (Some c) s' lit
  end.

(** Strip a leading [\b]. *)
Definition afterBoundary (src : string) : option string :=
  match src with
  | String "\" (String "b" rest) => Some rest
  | _ => None
  end.

(** Strip a trailing [\b]. *)
Fixpoint beforeBoundary (src : string) : option string :=
  match src with
  | String "\" (String "b" EmptyString) => Some EmptyString
  | String c rest =>
      match beforeBoundary rest with
      | Some body => Some (String c body)
      | None => None
      end
  | EmptyString => None
  end.

Definition literalRegexTest (source subject : string) : option bool :=
  match afterBoundary source with
  | Some rest =>
      match beforeBoundary rest with
      | Some lit =>
          if allChars literalChar lit
          then Some (matchFrom None (toLowerCase subject) lit)
          else None
      | None => None
      end
  | None => None
  end.

End NamasteService.

(* ================================================================== *)
(** ** The confidence helper *)

Module Helpers.

Import Js.
Open Scope Q_scope.

Fixpoint trimStart (s : string) : string :=
  match s with
  | EmptyString => EmptyString
  | String c s' => if isSpace c then trimStart s' else s
  end.

Fixpoint trimEnd (s : string) : string :=
  match s with
  | EmptyString => EmptyString
  | String c s' =>
      match trimEnd s' with
      | EmptyString => if isSpace c then EmptyString else String c EmptyString
      | r => String c r
      end
  end.

Definition trim (s : string) : string := trimEnd (trimStart s).

Definition isEmpty (s : string) : bool :=
  match s with
  | EmptyString => true
  | String _ _ => false
  end.

(** Modelled from the spec: [helpers.calculateMappingConfidence] lives in
    utils/helpers.js, which is not among the sources.  Section 4.2 has it
    delegate to the scorer of section 4.1 on the two display names:
    empty input gives 0; equality after lower-casing and trimming gives 1;
    one string a prefix of the other gives 0.9; one a substring of the
    other gives 0.7; otherwise the share of whitespace tokens of the first
    found inside a token of the second, times 0.6, with floor 0.3. *)
Definition calculateMappingConfidence (a b : string) : Q :=
  let a' := toLowerCase (trim a) in
  let b' := toLowerCase (trim b) in
  if isEmpty a' || isEmpty b' then 0.0
  else if String.eqb a' b' then 1.0
  else if startsWith a' b' || startsWith b' a' then 0.9
  else if includes a' b' || includes b' a' then 0.7
  else
    let tokensA := splitWs a' in
    let tokensB := splitWs b' in
    let matched :=
      filter (fun ta => existsb (fun tb => includes tb ta) tokensB) tokensA in
    Qmax 0.3
         (inject_Z (Z.of_nat (length matched))
          / inject_Z (Z.of_nat (length tokensA)) * 0.6).

(** The decimal digits of a non-negative integer. *)
Definition digit (n : Z) : ascii := ascii_of_nat (48 + Z.to_nat n).

Fixpoint digitsFuel (fuel : nat) (n : Z) (acc : string) : string :=
  match fuel with
  | O => acc
  | S fuel' =>
      let acc' := String (digit (n mod 10)) acc in
      if (n / 10 =? 0)%Z then acc' else digitsFuel fuel' (n / 10) acc'
  end.

Definition digits (n : Z) : string :=
  digitsFuel (S (Z.to_nat (Z.log2 n))) n EmptyString.

(** [x.toFixed(2)] on a non-negative exact rational: the nearest
    hundredth, the larger one on a tie. *)
Definition toFixed2 (x : Q) : string :=
  let n := Qfloor (x * 100 + (1 # 2)) in
  (digits (n / 100)
   ++ "."
   ++ String (digit ((n / 10) mod 10)) (String (digit (n mod 10)) EmptyString))%string.

End Helpers.

(* ================================================================== *)
(** ** The tables *)

Inductive status : Type := active | inactive.

Definition status_eqb (a b : status) : bool :=
  match a, b with
  | active, active | inactive, inactive => true
  | _, _ => false
  end.

Inductive mappingType : Type := equivalent | broader | narrower | related.

Module NamesteCode.

Record row : Type := {
  code : string;
  display_name : string;
  system_type : string;
  status : status
}.

End NamesteCode.

Module ICD11Code.

Record row : Type := {
  icd_id : string;
  code : string;
  title : string;
  module : string;
  status : status
}.

End ICD11Code.

Module CodeMapping.

Record row : Type := {
  id : Z;
  namaste_code : string;
  icd11_code : string;
  mapping_type : mappingType;
  confidence_score : Q;
  verified_by : option Z;
  verified_at : option Z;
  notes : option string;
  is_active : bool
}.

(** The argument of [CodeMapping.create]: a row without its key. *)
Record values : Type := {
  v_namaste_code : string;
  v_icd11_code : string;
  v_mapping_type : mappingType;
  v_confidence_score : Q;
  v_verified_by : option Z;
  v_verified_at : option Z;
  v_notes : option string;
  v_is_active : bool
}.

End CodeMapping.

Module AuditLog.

Record row : Type := {
  user_id : option Z;
  action : string;
  resource_type : string;
  resource_id : Z;
  new_confidence_score : Q
}.

End AuditLog.

(** The relational store. *)
Record Db : Type := {
  namaste_codes : list NamesteCode.row;
  icd11_codes : list ICD11Code.row;
  code_mappings : list CodeMapping.row;
  next_mapping_id : Z;
  audit_logs : list AuditLog.row
}.

Inductive error : Type :=
| Error (message : string)
| TypeError
| SequelizeValidationError
| SequelizeUniqueConstraintError.

Inductive result (A : Type) : Type :=
| Ok (a : A)
| Throw (e : error).

Arguments Ok {A} a.
Arguments Throw {A} e.

Module Sequelize.

Open Scope Q_scope.

(** [Model.findOne({ where })]: the first row the predicate accepts. *)
Definition findOne {A : Type} (where_ : A -> bool) (table : list A) : option A :=
  find where_ table.

(** [Model.findAll({ where })] *)
Definition findAll {A : Type} (where_ : A -> bool) (table : list A) : list A :=
  filter where_ table.

(** [validate: { min: 0.00, max: 1.00 }] on [confidence_score]. *)
Definition validConfidence (c : Q) : bool :=
  Qle_bool 0 c && Qle_bool c 1.

(** The unique index on [(namaste_code, icd11_code)]. *)
Definition samePair (n i : string) (m : CodeMapping.row) : bool :=
  String.eqb (CodeMapping.namaste_code m) n
  && String.eqb (CodeMapping.icd11_code m) i.

Definition withId (k : Z) (v : CodeMapping.values) : CodeMapping.row :=
  {| CodeMapping.id := k;
     CodeMapping.namaste_code := CodeMapping.v_namaste_code v;
     CodeMapping.icd11_code := CodeMapping.v_icd11_code v;
     CodeMapping.mapping_type := CodeMapping.v_mapping_type v;
     CodeMapping.confidence_score := CodeMapping.v_confidence_score v;
     CodeMapping.verified_by := CodeMapping.v_verified_by v;
     CodeMapping.verified_at := CodeMapping.v_verified_at v;
     CodeMapping.notes := CodeMapping.v_notes v;
     CodeMapping.is_active := CodeMapping.v_is_active v |}.

(** [CodeMapping.create(values)]: the model's validation, then the insert
    under the table's unique index, with the next key. *)
Definition create (v : CodeMapping.values) (d : Db)
  : result CodeMapping.row * Db :=
  if negb (validConfidence (CodeMapping.v_confidence_score v))
  then (Throw SequelizeValidationError, d)
  else if existsb (samePair (CodeMapping.v_namaste_code v)
                            (CodeMapping.v_icd11_code v))
                  (code_mappings d)
  then (Throw SequelizeUniqueConstraintError, d)
  else
    let m := withId (next_mapping_id d) v in
    (Ok m,
     {| namaste_codes := namaste_codes d;
        icd11_codes := icd11_codes d;
        code_mappings := code_mappings d ++ [m];
        next_mapping_id := (next_mapping_id d + 1)%Z;
        audit_logs := audit_logs d |}).

(** The rows joined by [include: [{ association: 'namasteCodeDetails' }]]
    and [{ association: 'icd11CodeDetails' }]. *)
Definition namasteCodeDetails (d : Db) (m : CodeMapping.row)
  : option NamesteCode.row :=
  find (fun r => String.eqb (NamesteCode.code r) (CodeMapping.namaste_code m))
       (namaste_codes d).

Definition icd11CodeDetails (d : Db) (m : CodeMapping.row)
  : option ICD11Code.row :=
  find (fun r => String.eqb (ICD11Code.icd_id r) (CodeMapping.icd11_code m))
       (icd11_codes d).

(** [row && row.status === 'active'] on a joined row. *)
Definition statusActive {A : Type} (st : A -> status) (r : option A) : bool :=
  match r with
  | Some x => status_eqb (st x) active
  | None => false
  end.

(** The three lookups every creation path starts with. *)
Definition activeNamaste (namasteCode : string) (r : NamesteCode.row) : bool :=
  String.eqb (NamesteCode.code r) namasteCode
  && status_eqb (NamesteCode.status r) active.

Definition activeIcd11 (icd11Code : string) (r : ICD11Code.row) : bool :=
  (String.eqb (ICD11Code.icd_id r) icd11Code
   || String.eqb (ICD11Code.code r) icd11Code)
  && status_eqb (ICD11Code.status r) active.

Definition activePair (namasteCode icdId : string) (m : CodeMapping.row) : bool :=
  String.eqb (CodeMapping.namaste_code m) namasteCode
  && String.eqb (CodeMapping.icd11_code m) icdId
  && Bool.eqb (CodeMapping.is_active m) true.

End Sequelize.

(** [x || y] on an optional number: [null], [undefined] and [0] give [y]. *)
Definition numberOr (x : option Q) (y : Q) : Q :=
  match x with
  | Some q => if Qeq_bool q 0 then y else q
  | None => y
  end.

Definition Qlt_bool (x y : Q) : bool := negb (Qle_bool y x).

(* ================================================================== *)
(** ** The mapping creator (batch tool) *)

Module MappingCreator.

Import Sequelize.
Open Scope Q_scope.

Record Stats : Type := {
  processed : nat;
  created : nat;
  skipped : nat;
  errors : nat
}.

(** The creator object and the store it works on. *)
Record state : Type := {
  db : Db;
  stats : Stats
}.

Definition noStats : Stats :=
  {| processed := 0; created := 0; skipped := 0; errors := 0 |}.

Definition resetStats (s : state) : state :=
  {| db := db s; stats := noStats |}.

Definition incProcessed (s : state) : state :=
  {| db := db s;
     stats := {| processed := S (processed (stats s));
                 created := created (stats s);
                 skipped := skipped (stats s);
                 errors := errors (stats s) |} |}.

Definition incCreated (s : state) : state :=
  {| db := db s;
     stats := {| processed := processed (stats s);
                 created := S (created (stats s));
                 skipped := skipped (stats s);
                 errors := errors (stats s) |} |}.

Definition incSkipped (s : state) : state :=
  {| db := db s;
     stats := {| processed := processed (stats s);
                 created := created (stats s);
                 skipped := S (skipped (stats s));
                 errors := errors (stats s) |} |}.

Definition incErrors (s : state) : state :=
  {| db := db s;
     stats := {| processed := processed (stats s);
                 created := created (stats s);
                 skipped := skipped (stats s);
                 errors := S (errors (stats s)) |} |}.


Inductive issue : Type :=
| NamasteIssue (mapping_id : Z) (namaste_code : string)
| Icd11Issue (mapping_id : Z) (icd11_code : string)
| ConfidenceIssue (mapping_id : Z) (current_score calculated_score : Q).

Definition issue_mapping_id (i : issue) : Z :=
  match i with
  | NamasteIssue k _ | Icd11Issue k _ | ConfidenceIssue k _ _ => k
  end.

Definition issue_text (i : issue) : string :=
  match i with
  | NamasteIssue _ _ => "NAMASTE code not found or inactive"
  | Icd11Issue _ _ => "ICD-11 code not found or inactive"
  | ConfidenceIssue _ _ _ => "Confidence score significantly different"
  end.

Record report : Type := {
  valid : nat;
  invalid : nat;
  issues : list issue
}.

Section Creator.

(** [helpers.calculateMappingConfidence] and [Number.prototype.toFixed(2)]. *)
Variable calculateMappingConfidence : string -> string -> Q.
Variable toFixed2 : Q -> string.

(** The [try] block of [createMapping]. *)
Definition createMappingTry
           (namasteCode icd11Code : string) (mappingType : option mappingType)
           (confidenceScore : option Q) (notes : option string) (s : state)
  : result CodeMapping.row * state :=
  match findOne (activeNamaste namasteCode) (namaste_codes (db s)) with
  | None =>
      (Throw (Error ("NAMASTE code '" ++ namasteCode
                     ++ "' not found or inactive")), s)
  | Some namasteEntity =>
      match findOne (activeIcd11 icd11Code) (icd11_codes (db s)) with
      | None =>
          (Throw (Error ("ICD-11 code '" ++ icd11Code
                         ++ "' not found or inactive")), s)
      | Some icd11Entity =>
          match findOne (activePair namasteCode (ICD11Code.icd_id icd11Entity))
                        (code_mappings (db s)) with
          | Some existingMapping => (Ok existingMapping, incSkipped s)
          | None =>
              let calculatedConfidence :=
                numberOr confidenceScore
                         (calculateMappingConfidence
                            (NamesteCode.display_name namasteEntity)
                            (ICD11Code.title icd11Entity)) in
              match create
                      {| CodeMapping.v_namaste_code := namasteCode;
                         CodeMapping.v_icd11_code := ICD11Code.icd_id icd11Entity;
                         CodeMapping.v_mapping_type :=
                           match mappingType with
                           | Some t => t
                           | None => equivalent
                           end;
                         CodeMapping.v_confidence_score := calculatedConfidence;
                         CodeMapping.v_verified_by := None;
                         CodeMapping.v_verified_at := None;
                         CodeMapping.v_notes := notes;
                         CodeMapping.v_is_active := true |}
                      (db s) with
              | (Ok mapping, d') =>
                  (Ok mapping, incCreated {| db := d'; stats := stats s |})
              | (Throw e, d') => (Throw e, {| db := d'; stats := stats s |})
              end
          end
      end
  end.

(** [createMapping]: the [try] block, [errors++] in [catch] before the
    error is thrown again, [processed++] in [finally]. *)
Definition createMapping
           (namasteCode icd11Code : string) (mappingType : option mappingType)
           (confidenceScore : option Q) (notes : option string) (s : state)
  : result CodeMapping.row * state :=
  match createMappingTry namasteCode icd11Code mappingType
                         confidenceScore notes s with
  | (Ok mapping, s') => (Ok mapping, incProcessed s')
  | (Throw e, s') => (Throw e, incProcessed (incErrors s'))
  end.



(** The inner loop of [createAutomaticMappings]. *)
Definition bestStep (threshold : Q) (display_name : string)
           (best : option ICD11Code.row * Q) (icd11Code : ICD11Code.row)
  : option ICD11Code.row * Q :=
  let score := calculateMappingConfidence display_name
                                          (ICD11Code.title icd11Code) in
  if Qlt_bool (snd best) score && Qle_bool threshold score
  then (Some icd11Code, score)
  else best.

Definition findBest (threshold : Q) (display_name : string)
           (icd11Codes : list ICD11Code.row) : option ICD11Code.row * Q :=
  fold_left (bestStep threshold display_name) icd11Codes (None, 0).

Definition autoNote (bestScore : Q) : string :=
  ("Automatically generated mapping (confidence: "
     ++ toFixed2 bestScore ++ ")")%string.

(** The outer loop body of [createAutomaticMappings]. *)
Definition autoMapOne (threshold : Q) (icd11Codes : list ICD11Code.row)
           (s : state) (namasteCode : NamesteCode.row) : state :=
  match findBest threshold (NamesteCode.display_name namasteCode) icd11Codes with
  | (Some bestMatch, bestScore) =>
      snd (createMapping (NamesteCode.code namasteCode)
                         (ICD11Code.icd_id bestMatch)
                         (Some equivalent)
                         (Some bestScore)
                         (Some (autoNote bestScore))
                         s)
  | (None, _) => s
  end.

Definition activeSources (d : Db) : list NamesteCode.row :=
  findAll (fun r => status_eqb (NamesteCode.status r) active) (namaste_codes d).

Definition tm2Targets (d : Db) : list ICD11Code.row :=
  findAll (fun r => status_eqb (ICD11Code.status r) active
                    && String.eqb (ICD11Code.module r) "tm2")
          (icd11_codes d).

(** [createAutomaticMappings(threshold = 0.7)] *)
Definition createAutomaticMappings (threshold : option Q) (s : state)
  : Stats * state :=
  let threshold := match threshold with Some t => t | None => 0.7 end in
  let s0 := resetStats s in
  let namasteCodes := activeSources (db s0) in
  let icd11Codes := tm2Targets (db s0) in
  let s' := fold_left (autoMapOne threshold icd11Codes) namasteCodes s0 in
  (stats s', s').

(** The loop body of [validateMappings]. *)
Definition validateStep (d : Db) (r : report) (mapping : CodeMapping.row)
  : report :=
  let namasteDetails := namasteCodeDetails d mapping in
  let icd11Details := icd11CodeDetails d mapping in
  if negb (statusActive NamesteCode.status namasteDetails)
  then {| valid := valid r; invalid := S (invalid r);
          issues := issues r
                    ++ [NamasteIssue (CodeMapping.id mapping)
                                     (CodeMapping.namaste_code mapping)] |}
  else if negb (statusActive ICD11Code.status icd11Details)
  then {| valid := valid r; invalid := S (invalid r);
          issues := issues r
                    ++ [Icd11Issue (CodeMapping.id mapping)
                                   (CodeMapping.icd11_code mapping)] |}
  else
    match namasteDetails, icd11Details with
    | Some n, Some i =>
        let recalculatedScore :=
          calculateMappingConfidence (NamesteCode.display_name n)
                                     (ICD11Code.title i) in
        let issues' :=
          if Qlt_bool 0.3
                      (Qabs (recalculatedScore
                             - CodeMapping.confidence_score mapping))
          then issues r
               ++ [ConfidenceIssue (CodeMapping.id mapping)
                                   (CodeMapping.confidence_score mapping)
                                   recalculatedScore]
          else issues r in
        {| valid := S (valid r); invalid := invalid r; issues := issues' |}
    | _, _ => r (* not reached: both rows passed the two guards *)
    end.

Definition activeMappings (d : Db) : list CodeMapping.row :=
  findAll (fun m => Bool.eqb (CodeMapping.is_active m) true) (code_mappings d).

(** [validateMappings()]: it only reads the store. *)
Definition validateMappings (s : state) : report * state :=
  let mappings := activeMappings (db s) in
  (fold_left (validateStep (db s)) mappings
             {| valid := 0; invalid := 0; issues := [] |},
   s).

End Creator.

End MappingCreator.

(* ================================================================== *)
(** ** The mapping service *)

Module MappingService.

Import Js Sequelize.
Open Scope Q_scope.

(** One element of the list [findSuggestedMappings] returns. *)
Record suggestion : Type := {
  icd11_code : string;
  icd11_title : string;
  confidence_score : Q;
  suggested_mapping_type : mappingType
}.

(** The object [validateMapping] returns. *)
Record validation : Type := {
  mapping_id : Z;
  is_valid : bool;
  v_confidence_score : Q;
  issues : list string
}.

(** [suggestMappingType(sourceDisplay, targetDisplay)] *)
Definition suggestMappingType (sourceDisplay targetDisplay : string)
  : mappingType :=
  let source := toLowerCase sourceDisplay in
  let target := toLowerCase targetDisplay in
  if String.eqb source target || includes source target || includes target source
  then equivalent
  else if (length (splitSpace target) <? length (splitSpace source))%nat
  then narrower
  else if (length (splitSpace source) <? length (splitSpace target))%nat
  then broader
  else related.

Section Service.

Variable calculateMappingConfidence : string -> string -> Q.

(** The store's [title LIKE pattern] and the order of its
    [ORDER BY title ASC]; both depend on the collation in use. *)
Variable sqlLike : string -> string -> bool.
Variable titleLeb : string -> string -> bool.

(** [createMapping(namasteCode, icd11Code, mappingType = 'equivalent',
    userId = null)], called at time [now]. *)
Definition createMapping (now : Z) (namasteCode icd11Code : string)
           (mappingType : option mappingType) (userId : option Z) (d : Db)
  : result CodeMapping.row * Db :=
  match findOne (activeNamaste namasteCode) (namaste_codes d),
        findOne (activeIcd11 icd11Code) (icd11_codes d) with
  | Some namaste, Some icd11 =>
      let confidenceScore :=
        calculateMappingConfidence (NamesteCode.display_name namaste)
                                   (ICD11Code.title icd11) in
      create {| CodeMapping.v_namaste_code := namasteCode;
                CodeMapping.v_icd11_code := ICD11Code.icd_id icd11;
                CodeMapping.v_mapping_type :=
                  match mappingType with
                  | Some t => t
                  | None => equivalent
                  end;
                CodeMapping.v_confidence_score := confidenceScore;
                CodeMapping.v_verified_by := userId;
                CodeMapping.v_verified_at :=
                  match userId with
                  | Some u => if (u =? 0)%Z then None else Some now
                  | None => None
                  end;
                CodeMapping.v_notes := None;
                CodeMapping.v_is_active := true |}
             d
  | _, _ => (Throw (Error "Source or target code not found"), d)
  end.

(** Insertion of a row into rows already in title order. *)
Fixpoint insertByTitle (r : ICD11Code.row) (rows : list ICD11Code.row)
  : list ICD11Code.row :=
  match rows with
  | [] => [r]
  | x :: rest =>
      if titleLeb (ICD11Code.title r) (ICD11Code.title x)
      then r :: x :: rest
      else x :: insertByTitle r rest
  end.

(** [order: [['title', 'ASC']]] *)
Definition orderByTitle (rows : list ICD11Code.row) : list ICD11Code.row :=
  fold_right insertByTitle [] rows.

Definition searchTerms (display_name : string) : list string :=
  filter (fun term => (2 <? String.length term)%nat)
         (splitWs (toLowerCase display_name)).

(** The [where] of the query: one of the terms occurs in the title, the
    module is tm2 and the row is active.  An empty [Op.or] selects no
    row. *)
Definition suggestionWhere (terms : list string) (r : ICD11Code.row) : bool :=
  existsb (fun term => sqlLike ("%" ++ term ++ "%")%string (ICD11Code.title r))
          terms
  && String.eqb (ICD11Code.module r) "tm2"
  && status_eqb (ICD11Code.status r) active.

(** [findSuggestedMappings(namasteCode, limit = 5)] *)
Definition findSuggestedMappings (namasteCode : string) (limit : option nat)
           (d : Db) : result (list suggestion) :=
  let limit := match limit with Some n => n | None => 5%nat end in
  match findOne (activeNamaste namasteCode) (namaste_codes d) with
  | None => Throw (Error "NAMASTE code not found")
  | Some namasteEntity =>
      let suggestions :=
        firstn limit
               (orderByTitle
                  (findAll (suggestionWhere
                              (searchTerms (NamesteCode.display_name namasteEntity)))
                           (icd11_codes d))) in
      Ok (map (fun s =>
                 {| icd11_code := ICD11Code.icd_id s;
                    icd11_title := ICD11Code.title s;
                    confidence_score :=
                      calculateMappingConfidence
                        (NamesteCode.display_name namasteEntity)
                        (ICD11Code.title s);
                    suggested_mapping_type :=
                      suggestMappingType
                        (NamesteCode.display_name namasteEntity)
                        (ICD11Code.title s) |})
              suggestions)
  end.

(** [validateMapping(mappingId)] *)
Definition validateMapping (mappingId : Z) (d : Db)
  : result validation * Db :=
  match find (fun m => (CodeMapping.id m =? mappingId)%Z) (code_mappings d) with
  | None => (Throw (Error "Mapping not found"), d)
  | Some mapping =>
      let namasteDetails := namasteCodeDetails d mapping in
      let icd11Details := icd11CodeDetails d mapping in
      let badNamaste := negb (statusActive NamesteCode.status namasteDetails) in
      let badIcd11 := negb (statusActive ICD11Code.status icd11Details) in
      let recalculatedConfidence :=
        calculateMappingConfidence
          (match namasteDetails with
           | Some n => NamesteCode.display_name n
           | None => EmptyString
           end)
          (match icd11Details with
           | Some i => ICD11Code.title i
           | None => EmptyString
           end) in
      (Ok {| mapping_id := mappingId;
             is_valid := negb badNamaste && negb badIcd11;
             v_confidence_score := CodeMapping.confidence_score mapping;
             issues :=
               (if badNamaste
                then ["NAMASTE code is inactive or not found"%string] else [])
               ++ (if badIcd11
                   then ["ICD-11 code is inactive or not found"%string] else [])
               ++ (if Qlt_bool 0.3
                               (Qabs (recalculatedConfidence
                                      - CodeMapping.confidence_score mapping))
                   then ["Confidence score may need recalculation"%string]
                   else []) |},
       d)
  end.

End Service.

(** [LIKE] under a binary collation: [%] stands for any run of code
    units and [_] for any one. *)
Fixpoint binaryLike (pattern s : string) : bool :=
  match pattern with
  | EmptyString => match s with EmptyString => true | _ => false end
  | String p pattern' =>
      if Ascii.eqb p "%"%char then
        (fix anySuffix (s : string) : bool :=
           binaryLike pattern' s ||
           match s with
           | EmptyString => false
           | String _ s' => anySuffix s'
           end) s
      else
        match s with
        | EmptyString => false
        | String c s' =>
            (Ascii.eqb p "_"%char || Ascii.eqb p c) && binaryLike pattern' s'
        end
  end.

End MappingService.

(* ================================================================== *)
(** ** The FHIR service *)

Module FhirService.

Import Js Sequelize.

Record concept : Type := {
  system : string;
  code : string;
  display : string
}.

Record translation : Type := {
  equivalence : mappingType;
  t_concept : concept
}.

(** [mappings.map(...)] where the callback reads a field of a joined row:
    a mapping without the joined row raises a [TypeError]. *)
Fixpoint mapJoined {A : Type} (details : CodeMapping.row -> option A)
         (f : CodeMapping.row -> A -> translation)
         (mappings : list CodeMapping.row) : result (list translation) :=
  match mappings with
  | [] => Ok []
  | m :: rest =>
      match details m with
      | None => Throw TypeError
      | Some x =>
          match mapJoined details f rest with
          | Ok ts => Ok (f m x :: ts)
          | Throw e => Throw e
          end
      end
  end.

Definition activeFrom (namasteCode : string) (m : CodeMapping.row) : bool :=
  String.eqb (CodeMapping.namaste_code m) namasteCode
  && Bool.eqb (CodeMapping.is_active m) true.

Definition activeTo (icdId : string) (m : CodeMapping.row) : bool :=
  String.eqb (CodeMapping.icd11_code m) icdId
  && Bool.eqb (CodeMapping.is_active m) true.

Definition activeIcdId (icdId : string) (r : ICD11Code.row) : bool :=
  String.eqb (ICD11Code.icd_id r) icdId
  && status_eqb (ICD11Code.status r) active.

(** [translateCode(system, code, targetSystem)] *)
Definition translateCode (system code : string) (targetSystem : option string)
           (d : Db) : result (list translation) :=
  if includes system "namaste" then
    match findOne (activeNamaste code) (namaste_codes d) with
    | None => Throw (Error "Source code not found")
    | Some sourceCode =>
        mapJoined (icd11CodeDetails d)
                  (fun mapping details =>
                     {| equivalence := CodeMapping.mapping_type mapping;
                        t_concept :=
                          {| system := "http://id.who.int/icd/entity";
                             code := CodeMapping.icd11_code mapping;
                             display := ICD11Code.title details |} |})
                  (findAll (activeFrom code) (code_mappings d))
    end
  else if includes system "icd" then
    match findOne (activeIcdId code) (icd11_codes d) with
    | None => Throw (Error "Source code not found")
    | Some targetCode =>
        mapJoined (namasteCodeDetails d)
                  (fun mapping details =>
                     {| equivalence := CodeMapping.mapping_type mapping;
                        t_concept :=
                          {| system :=
                               ("http://terminology.hl7.org/CodeSystem/namaste-"
                                  ++ NamesteCode.system_type details)%string;
                             code := CodeMapping.namaste_code mapping;
                             display := NamesteCode.display_name details |} |})
                  (findAll (activeTo code) (code_mappings d))
    end
  else Throw (Error "Unsupported code system").

End FhirService.

(* ================================================================== *)
(** ** The mapping controller (interactive path) *)

Module MappingController.

Import Js Sequelize.

(** [req.body] and [req.user.id] *)
Record request : Type := {
  namaste_code : option string;
  icd11_code : option string;
  mapping_type : option mappingType;
  confidence_score : option Q;
  notes : option string;
  user_id : Z
}.

Inductive response : Type :=
| BadRequest (message : string)          (* 400 *)
| Conflict (message : string)            (* 409 *)
| Created (mapping : CodeMapping.row)    (* 201 *)
| Next (e : error).                      (* next(error) *)

Definition logAction (entry : AuditLog.row) (d : Db) : Db :=
  {| namaste_codes := namaste_codes d;
     icd11_codes := icd11_codes d;
     code_mappings := code_mappings d;
     next_mapping_id := next_mapping_id d;
     audit_logs := audit_logs d ++ [entry] |}.

Section Controller.

Variable calculateMappingConfidence : string -> string -> Q.

(** [createMapping(req, res, next)], called at time [now]. *)
Definition createMapping (now : Z) (req : request) (d : Db) : response * Db :=
  match namaste_code req, icd11_code req with
  | Some (String a n), Some (String b i) =>
      let namaste_code := String a n in
      let icd11_code := String b i in
      match findOne (activeNamaste namaste_code) (namaste_codes d) with
      | None => (BadRequest "NAMASTE code not found or inactive", d)
      | Some namasteExists =>
          match findOne (activeIcd11 icd11_code) (icd11_codes d) with
          | None => (BadRequest "ICD-11 code not found or inactive", d)
          | Some icd11Exists =>
              match findOne (activePair namaste_code
                                        (ICD11Code.icd_id icd11Exists))
                            (code_mappings d) with
              | Some existingMapping =>
                  (Conflict "Mapping already exists between these codes", d)
              | None =>
                  let calculatedConfidence :=
                    numberOr (confidence_score req)
                             (calculateMappingConfidence
                                (NamesteCode.display_name namasteExists)
                                (ICD11Code.title icd11Exists)) in
                  match create
                          {| CodeMapping.v_namaste_code := namaste_code;
                             CodeMapping.v_icd11_code :=
                               ICD11Code.icd_id icd11Exists;
                             CodeMapping.v_mapping_type :=
                               match mapping_type req with
                               | Some t => t
                               | None => equivalent
                               end;
                             CodeMapping.v_confidence_score :=
                               calculatedConfidence;
                             CodeMapping.v_verified_by := Some (user_id req);
                             CodeMapping.v_verified_at := Some now;
                             CodeMapping.v_notes := notes req;
                             CodeMapping.v_is_active := true |}
                          d with
                  | (Throw e, d') => (Next e, d')
                  | (Ok mapping, d') =>
                      (* the row is read back by its key for the reply *)
                      (Created mapping,
                       logAction
                         {| AuditLog.user_id := Some (user_id req);
                            AuditLog.action := "MAPPING_CREATED";
                            AuditLog.resource_type := "code_mapping";
                            AuditLog.resource_id := CodeMapping.id mapping;
                            AuditLog.new_confidence_score :=
                              CodeMapping.confidence_score mapping |}
                         d')
                  end
              end
          end
      end
  | _, _ => (BadRequest "namaste_code and icd11_code are required", d)
  end.

End Controller.

(** *** Reading, updating and deleting one mapping *)

(** What a handler hands to [auditService.logAction]. *)
Record auditCall : Type := {
  a_user_id : Z;
  a_action : string;
  a_resource_type : string;
  a_resource_id : option Z
}.

(** The replies of the handlers on one mapping. *)
Inductive reply : Type :=
| NotFound (message : string)                              (* 404 *)
| Found (mapping : CodeMapping.row)                        (* getMapping *)
| Updated (message : string) (mapping : option CodeMapping.row)
| Deleted (message : string)
| NextError (e : error).                                   (* next(error) *)

(** [CodeMapping.findByPk(id)] *)
Definition findByPk (id : Z) (d : Db) : option CodeMapping.row :=
  find (fun m => (CodeMapping.id m =? id)%Z) (code_mappings d).

(** [instance.update(fields)]: the row of that key is rewritten in place. *)
Definition updateWhereId (id : Z) (set : CodeMapping.row -> CodeMapping.row)
           (d : Db) : Db :=
  {| namaste_codes := namaste_codes d;
     icd11_codes := icd11_codes d;
     code_mappings :=
       map (fun m => if (CodeMapping.id m =? id)%Z then set m else m)
           (code_mappings d);
     next_mapping_id := next_mapping_id d;
     audit_logs := audit_logs d |}.

(** [getMapping(req, res, next)] *)
Definition getMapping (id : Z) (d : Db) : reply :=
  match findByPk id d with
  | None => NotFound "Mapping not found"
  | Some mapping => Found mapping
  end.





(** The row after the soft delete. *)
Definition deactivate (now userId : Z) (m : CodeMapping.row) : CodeMapping.row :=
  {| CodeMapping.id := CodeMapping.id m;
     CodeMapping.namaste_code := CodeMapping.namaste_code m;
     CodeMapping.icd11_code := CodeMapping.icd11_code m;
     CodeMapping.mapping_type := CodeMapping.mapping_type m;
     CodeMapping.confidence_score := CodeMapping.confidence_score m;
     CodeMapping.verified_by := Some userId;
     CodeMapping.verified_at := Some now;
     CodeMapping.notes := CodeMapping.notes m;
     CodeMapping.is_active := false |}.

(** [deleteMapping(req, res, next)], called at time [now]. *)
Definition deleteMapping (now id userId : Z) (d : Db)
  : reply * Db * list auditCall :=
  match findByPk id d with
  | None => (NotFound "Mapping not found", d, [])
  | Some mapping =>
      (Deleted "Mapping deleted successfully",
       updateWhereId id (deactivate now userId) d,
       [ {| a_user_id := userId;
            a_action := "MAPPING_DELETED";
            a_resource_type := "code_mapping";
            a_resource_id := Some id |} ])
  end.

(** *** Batch translation *)

Record batchRequest : Type := {
  codes : option (list string);     (* [None]: absent or not an array *)
  source_system : option string;
  target_system : option string;
  user : option Z                   (* [req.user.id] *)
}.

(** One element of [results[code]]. *)
Record batchEntry : Type := {
  target_code : string;
  target_display : option string;
  target_module : option string;
  target_system_type : option string;
  b_mapping_type : mappingType;
  b_confidence_score : Q;
  verified : bool
}.

Record batchResult : Type := {
  total_requested : nat;
  total_mappings_found : nat;
  results : list (string * list batchEntry)
}.

Inductive batchReply : Type :=
| BatchBadRequest (message : string)     (* 400 *)
| BatchOk (r : batchResult).

(** [obj[key] = v] on an object literal, as the list of its own
    properties: a key already there is overwritten, and the key
    [__proto__] sets the prototype and adds no property.  The list is in
    the order of first assignment, which is the order in which the object
    enumerates keys that are not array indices; the statements below read
    the object by key or count its values, and do not depend on it. *)
Fixpoint assign {V : Type} (key : string) (v : V) (obj : list (string * V))
  : list (string * V) :=
  match obj with
  | [] => [(key, v)]
  | (k, x) :: rest =>
      if String.eqb k key then (k, v) :: rest else (k, x) :: assign key v rest
  end.

Definition setProp {V : Type} (key : string) (v : V) (obj : list (string * V))
  : list (string * V) :=
  if String.eqb key "__proto__" then obj else assign key v obj.

(** [obj[key]] on own properties. *)
Definition getProp {V : Type} (key : string) (obj : list (string * V)) : option V :=
  match find (fun kv => String.eqb (fst kv) key) obj with
  | Some kv => Some (snd kv)
  | None => None
  end.

(** [Object.values(results).flat().length] *)
Definition flatLength {V : Type} (obj : list (string * list V)) : nat :=
  length (concat (map snd obj)).

(** [!!mapping.verified_by] *)
Definition isVerified (m : CodeMapping.row) : bool :=
  match CodeMapping.verified_by m with
  | Some u => negb (u =? 0)%Z
  | None => false
  end.

Definition icd11Entry (d : Db) (mapping : CodeMapping.row) : batchEntry :=
  {| target_code := CodeMapping.icd11_code mapping;
     target_display := option_map ICD11Code.title (icd11CodeDetails d mapping);
     target_module := option_map ICD11Code.module (icd11CodeDetails d mapping);
     target_system_type := None;
     b_mapping_type := CodeMapping.mapping_type mapping;
     b_confidence_score := CodeMapping.confidence_score mapping;
     verified := isVerified mapping |}.

Definition namasteEntry (d : Db) (mapping : CodeMapping.row) : batchEntry :=
  {| target_code := CodeMapping.namaste_code mapping;
     target_display :=
       option_map NamesteCode.display_name (namasteCodeDetails d mapping);
     target_module := None;
     target_system_type :=
       option_map NamesteCode.system_type (namasteCodeDetails d mapping);
     b_mapping_type := CodeMapping.mapping_type mapping;
     b_confidence_score := CodeMapping.confidence_score mapping;
     verified := isVerified mapping |}.

(** [where: { <column>: { [Op.in]: codes }, is_active: true }] *)
Definition activeIn (column : CodeMapping.row -> string) (codes : list string)
           (m : CodeMapping.row) : bool :=
  existsb (String.eqb (column m)) codes
  && Bool.eqb (CodeMapping.is_active m) true.

(** The [codes.forEach] of either direction. *)
Definition collect (column : CodeMapping.row -> string)
           (entry : CodeMapping.row -> batchEntry)
           (mappings : list CodeMapping.row) (codes : list string)
  : list (string * list batchEntry) :=
  fold_left
    (fun results code =>
       let codeMappings :=
         filter (fun m => String.eqb (column m) code) mappings in
       setProp code (map entry codeMappings) results)
    codes [].

(** [batchTranslate(req, res, next)] *)
Definition batchTranslate (req : batchRequest) (d : Db)
  : batchReply * list auditCall :=
  match codes req with
  | None | Some [] => (BatchBadRequest "codes array is required", [])
  | Some codes =>
      if (50 <? length codes)%nat
      then (BatchBadRequest "Maximum 50 codes allowed per batch request", [])
      else if negb (truthy (source_system req)) || negb (truthy (target_system req))
      then (BatchBadRequest "source_system and target_system are required", [])
      else
        let answer (results : list (string * list batchEntry)) :=
          (BatchOk {| total_requested := length codes;
                      total_mappings_found := flatLength results;
                      results := results |},
           match user req with
           | Some u =>
               [ {| a_user_id := u;
                    a_action := "BATCH_TRANSLATE";
                    a_resource_type := "code_mapping";
                    a_resource_id := None |} ]
           | None => []
           end) in
        match source_system req, target_system req with
        | Some src, Some tgt =>
            if String.eqb src "namaste" && String.eqb tgt "icd11" then
              let mappings :=
                findAll (activeIn CodeMapping.namaste_code codes)
                        (code_mappings d) in
              answer (collect CodeMapping.namaste_code (icd11Entry d)
                              mappings codes)
            else if String.eqb src "icd11" && String.eqb tgt "namaste" then
              let mappings :=
                findAll (activeIn CodeMapping.icd11_code codes)
                        (code_mappings d) in
              answer (collect CodeMapping.icd11_code (namasteEntry d)
                              mappings codes)
            else
              (BatchBadRequest
                 "Invalid source_system or target_system combination", [])
        | _, _ =>
            (BatchBadRequest
               "Invalid source_system or target_system combination", [])
        end
  end.

End MappingController.

(* ================================================================== *)
(** ** The NAMASTE service on the store *)

Module NamasteCatalog.

Import Js Sequelize.

(** The fields of a [codeData] object that the service reads. *)
Record codeData : Type := {
  code : option string;
  display_name : option string;
  system_type : option string;
  parent_code : option string
}.

Record codeValidation : Type := {
  valid : bool;
  errors : list string
}.

Definition isUpper (c : ascii) : bool :=
  let n := nat_of_ascii c in ((65 <=? n) && (n <=? 90))%nat.

Definition isDigit (c : ascii) : bool :=
  let n := nat_of_ascii c in ((48 <=? n) && (n <=? 57))%nat.

(** [/^[A-Z]{3}[0-9]{3,6}$/.test(code)] *)
Definition codePattern (code : string) : bool :=
  match code with
  | String a (String b (String c digits)) =>
      isUpper a && isUpper b && isUpper c
      && NamasteService.allChars isDigit digits
      && (3 <=? String.length digits)%nat && (String.length digits <=? 6)%nat
  | _ => false
  end.

(** [['ayurveda', 'siddha', 'unani'].includes(system_type)] *)
Definition knownSystem (system_type : string) : bool :=
  String.eqb system_type "ayurveda" || String.eqb system_type "siddha"
  || String.eqb system_type "unani".

Definition textOf (v : option string) : string :=
  match v with
  | Some s => s
  | None => EmptyString
  end.

Definition when (b : bool) (message : string) : list string :=
  if b then [message] else [].

(** [validateCode(codeData)] *)
Definition validateCode (codeData : codeData) (d : Db) : codeValidation :=
  let errors :=
    when (negb (truthy (code codeData))) "Code is required"
    ++ when (negb (truthy (display_name codeData))) "Display name is required"
    ++ when (negb (truthy (system_type codeData))) "System type is required"
    ++ when (truthy (system_type codeData)
             && negb (knownSystem (textOf (system_type codeData))))
            "System type must be one of: ayurveda, siddha, unani"
    ++ when (truthy (code codeData)
             && negb (codePattern (textOf (code codeData))))
            "Code must follow pattern: 3 letters followed by 3-6 digits (e.g., NAM001)"
    ++ when (truthy (parent_code codeData)
             && match findOne (activeNamaste (textOf (parent_code codeData)))
                              (namaste_codes d) with
                | Some parentExists => false
                | None => true
                end)
            "Parent code does not exist"
    ++ when (truthy (code codeData)
             && match findOne (fun r => String.eqb (NamesteCode.code r)
                                                   (textOf (code codeData)))
                              (namaste_codes d) with
                | Some existingCode => true
                | None => false
                end)
            "Code already exists" in
  {| valid := (length errors =? 0)%nat; errors := errors |}.

(** [NamesteCode.create({ ...codeData, status: 'active' })]: the three
    columns that do not allow NULL, the unique index on [code], and the
    enumeration of [system_type], which the database enforces (MySQL in
    its strict mode, the default, refuses a value outside the
    enumeration). *)
Definition create (codeData : codeData) (d : Db) : result NamesteCode.row * Db :=
  match code codeData, display_name codeData, system_type codeData with
  | Some c, Some n, Some t =>
      if negb (knownSystem t)
      then (Throw (Error "Data truncated for column 'system_type' at row 1"), d)
      else if existsb (fun r => String.eqb (NamesteCode.code r) c) (namaste_codes d)
      then (Throw SequelizeUniqueConstraintError, d)
      else
        let r := {| NamesteCode.code := c;
                    NamesteCode.display_name := n;
                    NamesteCode.system_type := t;
                    NamesteCode.status := active |} in
        (Ok r,
         {| namaste_codes := namaste_codes d ++ [r];
            icd11_codes := icd11_codes d;
            code_mappings := code_mappings d;
            next_mapping_id := next_mapping_id d;
            audit_logs := audit_logs d |})
  | _, _, _ => (Throw SequelizeValidationError, d)
  end.

(** One element of the [errors] array of [importCodes]: a failed
    validation with its messages, or an error thrown by the store. *)
Inductive importError : Type :=
| Rejected (code : option string) (errors : list string)
| Failed (code : option string) (e : error).

Record importReport : Type := {
  imported : nat;
  skipped : nat;
  error_count : nat;                 (* [errors: errors.length] *)
  error_details : list importError   (* [errors.slice(0, 10)] *)
}.

(** The three accumulators of the loop of [importCodes]. *)
Record importState : Type := {
  s_db : Db;
  s_imported : nat;
  s_skipped : nat;
  s_errors : list importError
}.

(** The loop body of [importCodes]: a failed validation is recorded, a
    code already stored is skipped, and an error thrown by the store is
    caught and recorded. *)
Definition importOne (validate skip_duplicates : bool) (s : importState)
           (codeData : codeData) : importState :=
  let record (e : importError) :=
    {| s_db := s_db s; s_imported := s_imported s; s_skipped := s_skipped s;
       s_errors := s_errors s ++ [e] |} in
  let validation := validateCode codeData (s_db s) in
  if validate && negb (valid validation)
  then record (Rejected (code codeData) (errors validation))
  else if skip_duplicates
          && match code codeData with
             | Some c =>
                 match findOne (fun r => String.eqb (NamesteCode.code r) c)
                               (namaste_codes (s_db s)) with
                 | Some existing => true
                 | None => false
                 end
             | None => false
             end
  then {| s_db := s_db s; s_imported := s_imported s;
          s_skipped := S (s_skipped s); s_errors := s_errors s |}
  else
    match create codeData (s_db s) with
    | (Ok _, d') =>
        {| s_db := d'; s_imported := S (s_imported s);
           s_skipped := s_skipped s; s_errors := s_errors s |}
    | (Throw e, _) => record (Failed (code codeData) e)
    end.

(** [importCodes(codesArray, { validate = true, skip_duplicates = true })] *)
Definition importCodes (codesArray : list codeData)
           (validate skip_duplicates : option bool) (d : Db)
  : importReport * Db :=
  let validate := match validate with Some b => b | None => true end in
  let skip_duplicates := match skip_duplicates with Some b => b | None => true end in
  let s := fold_left (importOne validate skip_duplicates) codesArray
                     {| s_db := d; s_imported := 0; s_skipped := 0;
                        s_errors := [] |} in
  ({| imported := s_imported s;
      skipped := s_skipped s;
      error_count := length (s_errors s);
      error_details := firstn 10 (s_errors s) |},
   s_db s).

End NamasteCatalog.

(* ================================================================== *)
(** ** The hierarchy walk of the NAMASTE service *)

Module NamasteHierarchy.

Import Js Sequelize.

(** A row of [namaste_codes] with its [parent_code] column. *)
Record node : Type := {
  row : NamesteCode.row;
  parent_code : option string
}.

Definition activeCode (code : string) (n : node) : bool :=
  activeNamaste code (row n).

(** [getAncestors(code, ancestors = [])]: each call spends one unit of
    [fuel]; [None] when the fuel runs out before the walk ends. *)
Fixpoint getAncestors (fuel : nat) (table : list node) (code : node)
         (ancestors : list node) : option (list node) :=
  match fuel with
  | O => None
  | S fuel' =>
      match parent_code code with
      | Some (String a p) =>
          match findOne (activeCode (String a p)) table with
          | Some parent => getAncestors fuel' table parent (parent :: ancestors)
          | None => Some ancestors
          end
      | _ => Some ancestors
      end
  end.

End NamasteHierarchy.

(* ================================================================== *)
(** ** Definitions used by the statements *)


(** The query words found inside a word of the text. *)
Definition matchingWords (queryLower textLower : string) : list string :=
  filter (fun word =>
            existsb (fun textWord => Js.includes textWord word)
                    (Js.splitWs textLower))
         (Js.splitWs queryLower).

(** The unique index of the mappings table holds: no two rows relate the
    same pair of codes. *)
Definition pairKey (m : CodeMapping.row) : string * string :=
  (CodeMapping.namaste_code m, CodeMapping.icd11_code m).



(** A store for the examples: three traditional-medicine codes, one of
    them inactive, and three classification entries. *)
Definition sampleDb : Db :=
  {| namaste_codes :=
       [ {| NamesteCode.code := "NAM001";
            NamesteCode.display_name := "Vata Prakopa";
            NamesteCode.system_type := "ayurveda";
            NamesteCode.status := active |};
         {| NamesteCode.code := "NAM002";
            NamesteCode.display_name := "vata dosha";
            NamesteCode.system_type := "ayurveda";
            NamesteCode.status := active |};
         {| NamesteCode.code := "SID001";
            NamesteCode.display_name := "Vatham";
            NamesteCode.system_type := "siddha";
            NamesteCode.status := inactive |} ];
     icd11_codes :=
       [ {| ICD11Code.icd_id := "1435254666";
            ICD11Code.code := "SK00";
            ICD11Code.title := "Vata Prakopa";
            ICD11Code.module := "tm2";
            ICD11Code.status := active |};
         {| ICD11Code.icd_id := "1435254667";
            ICD11Code.code := "SK01";
            ICD11Code.title := "vata dosha";
            ICD11Code.module := "tm2";
            ICD11Code.status := active |};
         {| ICD11Code.icd_id := "1435254668";
            ICD11Code.code := "SK02";
            ICD11Code.title := "my vata";
            ICD11Code.module := "tm2";
            ICD11Code.status := active |} ];
     code_mappings := [];
     next_mapping_id := 1;
     audit_logs := [] |}.

(** A store for the suggestions of "vata dosha": two tm2 entries whose
    titles contain one of its words. *)
Definition suggestionDb : Db :=
  {| namaste_codes :=
       [ {| NamesteCode.code := "NAM002";
            NamesteCode.display_name := "vata dosha";
            NamesteCode.system_type := "ayurveda";
            NamesteCode.status := active |} ];
     icd11_codes :=
       [ {| ICD11Code.icd_id := "1435254667";
            ICD11Code.code := "SK01";
            ICD11Code.title := "vata dosha";
            ICD11Code.module := "tm2";
            ICD11Code.status := active |};
         {| ICD11Code.icd_id := "1435254668";
            ICD11Code.code := "SK02";
            ICD11Code.title := "my vata";
            ICD11Code.module := "tm2";
            ICD11Code.status := active |} ];
     code_mappings := [];
     next_mapping_id := 1;
     audit_logs := [] |}.

(** The example store once NAM001 has been mapped to 1435254666. *)
Definition sampleMapping : CodeMapping.row :=
  {| CodeMapping.id := 1;
     CodeMapping.namaste_code := "NAM001";
     CodeMapping.icd11_code := "1435254666";
     CodeMapping.mapping_type := equivalent;
     CodeMapping.confidence_score := 0.95;
     CodeMapping.verified_by := None;
     CodeMapping.verified_at := None;
     CodeMapping.notes := None;
     CodeMapping.is_active := true |}.

Definition mappedDb : Db :=
  {| namaste_codes := namaste_codes sampleDb;
     icd11_codes := icd11_codes sampleDb;
     code_mappings := [sampleMapping];
     next_mapping_id := 2;
     audit_logs := [] |}.

Definition sampleRequest (confidence : option Q) : MappingController.request :=
  {| MappingController.namaste_code := Some "NAM001"%string;
     MappingController.icd11_code := Some "1435254666"%string;
     MappingController.mapping_type := None;
     MappingController.confidence_score := confidence;
     MappingController.notes := None;
     MappingController.user_id := 7 |}.



(** A mapping whose source or target row is missing or inactive. *)
Definition brokenReference (d : Db) (m : CodeMapping.row) : bool :=
  negb (Sequelize.statusActive NamesteCode.status (Sequelize.namasteCodeDetails d m))
  || negb (Sequelize.statusActive ICD11Code.status (Sequelize.icd11CodeDetails d m)).

(** A creator that starts on a store with fresh counters. *)
Definition freshCreator (d : Db) : MappingCreator.state :=
  {| MappingCreator.db := d; MappingCreator.stats := MappingCreator.noStats |}.


(** The mapped store after the classification entry 1435254666 has been
    deactivated. *)
Definition staleDb : Db :=
  {| namaste_codes := namaste_codes sampleDb;
     icd11_codes :=
       [ {| ICD11Code.icd_id := "1435254666";
            ICD11Code.code := "SK00";
            ICD11Code.title := "Vata Prakopa";
            ICD11Code.module := "tm2";
            ICD11Code.status := inactive |} ];
     code_mappings := [sampleMapping];
     next_mapping_id := 2;
     audit_logs := [] |}.


(** The relation seen from the other side. *)
Definition converse (t : mappingType) : mappingType :=
  match t with
  | narrower => broader
  | broader => narrower
  | equivalent => equivalent
  | related => related
  end.





(** The mappings a batch translation counts for the requested codes: the
    active ones whose code in the source column is requested and is not
    the property name [__proto__]. *)
Definition requested (column : CodeMapping.row -> string) (codes : list string)
           (m : CodeMapping.row) : bool :=
  Bool.eqb (CodeMapping.is_active m) true
  && existsb (String.eqb (column m)) codes
  && negb (String.eqb (column m) "__proto__").

(** A batch request of the examples. *)
Definition sampleBatchRequest : MappingController.batchRequest :=
  {| MappingController.codes := Some ["NAM001"; "NAM002"; "NAM001"]%string;
     MappingController.source_system := Some "namaste"%string;
     MappingController.target_system := Some "icd11"%string;
     MappingController.user := Some 7%Z |}.

(** Code data of the examples: a new Unani code and a child of NAM001. *)
Definition sampleCodeData : NamasteCatalog.codeData :=
  {| NamasteCatalog.code := Some "UNA001"%string;
     NamasteCatalog.display_name := Some "Mizaj-e-Har"%string;
     NamasteCatalog.system_type := Some "unani"%string;
     NamasteCatalog.parent_code := None |}.

Definition childCodeData : NamasteCatalog.codeData :=
  {| NamasteCatalog.code := Some "NAM010"%string;
     NamasteCatalog.display_name := Some "Vata Kshaya"%string;
     NamasteCatalog.system_type := Some "ayurveda"%string;
     NamasteCatalog.parent_code := Some "NAM001"%string |}.

(** The codes of the stored traditional-medicine entries are distinct (the
    unique index on [code]). *)
Definition uniqueCodes (d : Db) : Prop :=
  NoDup (map NamesteCode.code (namaste_codes d)).

(** An element of the [errors] array that records a failed validation. *)
Definition isRejected (e : NamasteCatalog.importError) : bool :=
  match e with
  | NamasteCatalog.Rejected _ _ => true
  | NamasteCatalog.Failed _ _ => false
  end.

(** What every entry stored by [importCodes] satisfies. *)
Definition importedRow (r : NamesteCode.row) : Prop :=
  NamesteCode.status r = active.

Definition sampleImport : list NamasteCatalog.codeData :=
  [sampleCodeData; childCodeData; sampleCodeData].

(** The active parent entry of a node, as [getAncestors] looks it up. *)
Definition parentOf (table : list NamasteHierarchy.node)
           (n : NamasteHierarchy.node) : option NamasteHierarchy.node :=
  match NamasteHierarchy.parent_code n with
  | Some (String a p) =>
      Sequelize.findOne (NamasteHierarchy.activeCode (String a p)) table
  | _ => None
  end.

(** [climbs table n path]: [path] lists the parent of [n], then the parent
    of that parent, and so on up to an entry without active parent. *)
Fixpoint climbs (table : list NamasteHierarchy.node)
         (n : NamasteHierarchy.node) (path : list NamasteHierarchy.node) : Prop :=
  match path with
  | [] => parentOf table n = None
  | p :: rest => parentOf table n = Some p /\ climbs table p rest
  end.

Definition hierarchyNode (code : string) (parent : option string)
  : NamasteHierarchy.node :=
  {| NamasteHierarchy.row :=
       {| NamesteCode.code := code;
          NamesteCode.display_name := code;
          NamesteCode.system_type := "ayurveda";
          NamesteCode.status := active |};
     NamasteHierarchy.parent_code := parent |}.

(** A table of three levels and a table in which two entries name each
    other as parent. *)
Definition treeTable : list NamasteHierarchy.node :=
  [hierarchyNode "NAM001" None;
   hierarchyNode "NAM010" (Some "NAM001"%string);
   hierarchyNode "NAM011" (Some "NAM010"%string)].

Definition treeRank (n : NamasteHierarchy.node) : nat :=
  match NamasteHierarchy.parent_code n with
  | Some p =>
      if String.eqb p "NAM001" then 1
      else if String.eqb p "NAM010" then 2
      else 0
  | None => 0
  end.

Definition cyclicTable : list NamasteHierarchy.node :=
  [hierarchyNode "NAM001" (Some "NAM002"%string);
   hierarchyNode "NAM002" (Some "NAM001"%string)].

Definition onCycle (n : NamasteHierarchy.node) : Prop :=
  In n cyclicTable.

(** The rows of [icd11_codes] that the query of [findSuggestedMappings]
    selects for a display name: active rows of the module tm2 whose title
    contains, under [sqlLike], a word of more than two characters of the
    lower-cased display name. *)
Definition suggestible (sqlLike : string -> string -> bool)
           (display_name : string) (r : ICD11Code.row) : Prop :=
  ICD11Code.status r = active
  /\ ICD11Code.module r = "tm2"%string
  /\ exists term,
      In term (Js.splitWs (Js.toLowerCase display_name))
      /\ (2 < String.length term)%nat
      /\ sqlLike ("%" ++ term ++ "%")%string (ICD11Code.title r) = true.

Definition vataDosha : NamesteCode.row :=
  {| NamesteCode.code := "NAM002";
     NamesteCode.display_name := "vata dosha";
     NamesteCode.system_type := "ayurveda";
     NamesteCode.status := active |}.

Definition myVata : ICD11Code.row :=
  {| ICD11Code.icd_id := "1435254668";
     ICD11Code.code := "SK02";
     ICD11Code.title := "my vata";
     ICD11Code.module := "tm2";
     ICD11Code.status := active |}.

(* ================================================================== *)
(** * Properties *)

(** ** Strings *)

Section StringFacts.

Import Js.

Lemma startsWith_iff (s p : string) :
  startsWith s p = true <-> exists r, s = (p ++ r)%string.
Proof.
  revert s; induction p as [|a p IH]; intros s; simpl.
  - split; [intros _; now exists s | now destruct s].
  - destruct s as [|b s]; simpl.
    + split; [discriminate | intros [r Hr]; discriminate].
    + rewrite andb_true_iff, Ascii.eqb_eq, IH. split.
      * intros [-> [r ->]]. now exists r.
      * intros [r Hr]. injection Hr as -> ->. split; [reflexivity | now exists r].
Qed.

Lemma includes_iff (s p : string) :
  includes s p = true <-> exists l r, s = (l ++ p ++ r)%string.
Proof.
  induction s as [|c s IH]; cbn [includes].
  - rewrite orb_false_r. split.
    + intros H. apply startsWith_iff in H. destruct H as [r Hr].
      now exists EmptyString, r.
    + intros [l [r Hr]]. apply startsWith_iff.
      destruct l; [now exists r | discriminate].
  - rewrite orb_true_iff, IH. split.
    + intros [H | [l [r Hr]]].
      * apply startsWith_iff in H. destruct H as [r Hr].
        now exists EmptyString, r.
      * exists (String c l), r. simpl. now rewrite Hr.
    + intros [l [r Hr]]. destruct l as [|c' l].
      * left. apply startsWith_iff. now exists r.
      * right. injection Hr as _ Hr. now exists l, r.
Qed.

Lemma splitWsFrom_length (s tok : string) (inRun : bool) :
  (1 <= length (splitWsFrom s tok inRun))%nat.
Proof.
  revert tok inRun; induction s as [|c s IH]; intros tok inRun; simpl.
  - lia.
  - destruct (isSpace c); [destruct inRun|]; simpl; auto with arith.
Qed.

Lemma splitWs_length (s : string) : (1 <= length (splitWs s))%nat.
Proof. apply splitWsFrom_length. Qed.

Lemma append_empty_r (s : string) : (s ++ EmptyString)%string = s.
Proof. induction s as [|c s IH]; simpl; [reflexivity | now rewrite IH]. Qed.

Lemma truthy_Some (s : string) : truthy (Some s) = true <-> s <> EmptyString.
Proof.
  destruct s; simpl; split; intros H; congruence || reflexivity.
Qed.

End StringFacts.

(** ** Rational arithmetic of the word-overlap tier *)

Section OverlapFacts.

Open Scope Q_scope.

Lemma overlap_bounds (m n : nat) :
  (m <= n)%nat -> (1 <= n)%nat ->
  0 <= inject_Z (Z.of_nat m) / inject_Z (Z.of_nat n) * 0.6
  /\ inject_Z (Z.of_nat m) / inject_Z (Z.of_nat n) * 0.6 <= 0.6.
Proof.
  intros Hmn Hn.
  assert (Hn0 : 0 < inject_Z (Z.of_nat n)).
  { unfold Qlt; simpl. lia. }
  assert (Hm0 : 0 <= inject_Z (Z.of_nat m)).
  { unfold Qle; simpl. lia. }
  assert (Hle : inject_Z (Z.of_nat m) / inject_Z (Z.of_nat n) <= 1).
  { apply Qle_shift_div_r; [assumption|].
    rewrite Qmult_1_l. unfold Qle; simpl. lia. }
  assert (Hge : 0 <= inject_Z (Z.of_nat m) / inject_Z (Z.of_nat n)).
  { apply Qle_shift_div_l; [assumption|].
    rewrite Qmult_0_l. assumption. }
  split.
  - apply Qmult_le_0_compat; [assumption | discriminate].
  - setoid_replace 0.6 with (1 * 0.6) at 2 by ring.
    apply Qmult_le_compat_r; [assumption | discriminate].
Qed.

Lemma filter_length_le {A : Type} (f : A -> bool) (l : list A) :
  (length (filter f l) <= length l)%nat.
Proof.
  induction l as [|x l IH]; simpl; [lia|].
  destruct (f x); simpl; lia.
Qed.

Lemma floor_bounds (x : Q) :
  0 <= x -> x <= 0.6 -> 0.3 <= Qmax 0.3 x /\ Qmax 0.3 x <= 1.0.
Proof.
  intros H0 H1. split.
  - apply Q.le_max_l.
  - apply Q.max_lub; [discriminate|].
    apply Qle_trans with 0.6; [assumption | discriminate].
Qed.

End OverlapFacts.

(** ** The scorer of the search controller *)

Section ScorerFacts.

Import Js.
Open Scope Q_scope.

Lemma score_unfold (q t : string) :
  q <> EmptyString -> t <> EmptyString ->
  SearchController.calculateRelevanceScore (Some q) (Some t)
  = if String.eqb (toLowerCase t) (toLowerCase q) then 1.0
    else if startsWith (toLowerCase t) (toLowerCase q) then 0.9
    else if includes (toLowerCase t) (toLowerCase q) then 0.7
    else Qmax 0.3
              (inject_Z (Z.of_nat (length (matchingWords (toLowerCase q)
                                                         (toLowerCase t))))
               / inject_Z (Z.of_nat (length (splitWs (toLowerCase q)))) * 0.6).
Proof.
  intros Hq Ht. unfold SearchController.calculateRelevanceScore.
  apply truthy_Some in Hq. apply truthy_Some in Ht.
  rewrite Hq, Ht. reflexivity.
Qed.


Lemma score_range (q t : string) :
  q <> EmptyString -> t <> EmptyString ->
  0.3 <= SearchController.calculateRelevanceScore (Some q) (Some t)
  /\ SearchController.calculateRelevanceScore (Some q) (Some t) <= 1.0.
Proof.
  intros Hq Ht. rewrite (score_unfold Hq Ht).
  destruct (String.eqb _ _); [split; discriminate|].
  destruct (startsWith _ _); [split; discriminate|].
  destruct (includes _ _); [split; discriminate|].
  destruct (overlap_bounds
              (m := length (matchingWords (toLowerCase q) (toLowerCase t)))
              (n := length (splitWs (toLowerCase q)))) as [H0 H1].
  - apply filter_length_le.
  - apply splitWs_length.
  - now apply floor_bounds.
Qed.

End ScorerFacts.




(** C8.  On two non-empty strings the score lies between 0.3 and 1.0, and
    a score below 0.3 only comes from an empty or absent argument. *)
Theorem calculateRelevanceScore_floor (query text : option string) :
  (Js.truthy query = true -> Js.truthy text = true ->
   (0.3 <= SearchController.calculateRelevanceScore query text
    /\ SearchController.calculateRelevanceScore query text <= 1.0)%Q)
  /\
  ((SearchController.calculateRelevanceScore query text < 0.3)%Q ->
   Js.truthy query = false \/ Js.truthy text = false).
Proof.
  assert (H : Js.truthy query = true -> Js.truthy text = true ->
              (0.3 <= SearchController.calculateRelevanceScore query text
               /\ SearchController.calculateRelevanceScore query text <= 1.0)%Q).
  { destruct query as [q|], text as [t|]; try discriminate.
    intros Hq Ht. apply truthy_Some in Hq. apply truthy_Some in Ht.
    now apply score_range. }
  split; [exact H|].
  intros Hlt.
  destruct (Js.truthy query) eqn:Hq; [|now left].
  destruct (Js.truthy text) eqn:Ht; [|now right].
  destruct (H eq_refl eq_refl) as [Hlo _].
  exfalso. apply (Qlt_not_le _ _ Hlt Hlo).
Qed.

Lemma calculateRelevanceScore_floor_witness :
  (0.3 <= SearchController.calculateRelevanceScore (Some "pitta"%string)
                                                   (Some "kapha vikara"%string)
   /\ SearchController.calculateRelevanceScore (Some "pitta"%string)
                                               (Some "kapha vikara"%string)
      <= 1.0)%Q.
Proof.
  apply (proj1 (calculateRelevanceScore_floor (Some "pitta"%string)
                                              (Some "kapha vikara"%string)));
    reflexivity.
Defined.

(** C9.  The scorer is not symmetric: "vata" against "vata dosha" scores
    0.9, "vata dosha" against "vata" scores 0.3. *)
Theorem calculateRelevanceScore_not_symmetric :
  exists x y : string,
    ~ (SearchController.calculateRelevanceScore (Some x) (Some y)
       == SearchController.calculateRelevanceScore (Some y) (Some x))%Q.
Proof.
  exists "vata"%string, "vata dosha"%string. vm_compute. congruence.
Qed.

(** ** The two copies of the scorer *)




(** ** Creating a mapping *)

Section CreationFacts.

Import Sequelize.







End CreationFacts.







(** ** Automatic mapping *)


Section AutoMapFacts.

Import Sequelize.
Open Scope Q_scope.

Variable calculateMappingConfidence : string -> string -> Q.
Variable toFixed2 : Q -> string.
Variable threshold : Q.







End AutoMapFacts.



(** A run on the example store with threshold 0.95: both active entries
    have a candidate with score 1.0 and get their mapping. *)
Example createAutomaticMappings_sample :
  let result := MappingCreator.createAutomaticMappings
                  Helpers.calculateMappingConfidence Helpers.toFixed2
                  (Some 0.95%Q) (freshCreator sampleDb) in
  MappingCreator.created (fst result) = 2%nat
  /\ MappingCreator.errors (fst result) = 0%nat
  /\ map (fun m => (CodeMapping.namaste_code m, CodeMapping.icd11_code m,
                    CodeMapping.notes m))
         (code_mappings (MappingCreator.db (snd result)))
     = [ ("NAM001", "1435254666",
          Some "Automatically generated mapping (confidence: 1.00)");
         ("NAM002", "1435254667",
          Some "Automatically generated mapping (confidence: 1.00)") ]%string.
Proof. vm_compute. repeat split. Qed.


(** ** Validation *)

Section ValidationFacts.

Import Sequelize.

Variable calculateMappingConfidence : string -> string -> Q.
Variable d : Db.

Lemma validateStep_broken (r : MappingCreator.report) (m : CodeMapping.row) :
  brokenReference d m = true ->
  MappingCreator.invalid (MappingCreator.validateStep calculateMappingConfidence d r m)
  = S (MappingCreator.invalid r)
  /\ MappingCreator.valid (MappingCreator.validateStep calculateMappingConfidence d r m)
     = MappingCreator.valid r
  /\ exists i,
      MappingCreator.issues (MappingCreator.validateStep calculateMappingConfidence d r m)
      = MappingCreator.issues r ++ [i]
      /\ MappingCreator.issue_mapping_id i = CodeMapping.id m
      /\ (MappingCreator.issue_text i = "NAMASTE code not found or inactive"%string
          \/ MappingCreator.issue_text i = "ICD-11 code not found or inactive"%string).
Proof.
  unfold brokenReference, MappingCreator.validateStep. intros Hb.
  destruct (negb (statusActive NamesteCode.status (namasteCodeDetails d m))) eqn:Hn.
  - simpl. repeat split. eexists. split; [reflexivity|]. simpl. tauto.
  - simpl in Hb. rewrite Hb. simpl. repeat split.
    eexists. split; [reflexivity|]. simpl. tauto.
Qed.

Lemma validateStep_sound (r : MappingCreator.report) (m : CodeMapping.row) :
  brokenReference d m = false ->
  MappingCreator.invalid (MappingCreator.validateStep calculateMappingConfidence d r m)
  = MappingCreator.invalid r
  /\ MappingCreator.valid (MappingCreator.validateStep calculateMappingConfidence d r m)
     = S (MappingCreator.valid r)
  /\ exists more,
      MappingCreator.issues (MappingCreator.validateStep calculateMappingConfidence d r m)
      = MappingCreator.issues r ++ more.
Proof.
  unfold brokenReference, MappingCreator.validateStep. intros Hb.
  apply orb_false_iff in Hb. destruct Hb as [Hn Hi]. rewrite Hn, Hi.
  destruct (namasteCodeDetails d m) as [n|]; [|discriminate].
  destruct (icd11CodeDetails d m) as [i|]; [|discriminate].
  simpl. repeat split.
  destruct (Qlt_bool _ _).
  - eexists. reflexivity.
  - exists []. now rewrite app_nil_r.
Qed.

Lemma validate_loop (l : list CodeMapping.row) (r : MappingCreator.report) :
  let r' := fold_left (MappingCreator.validateStep calculateMappingConfidence d) l r in
  MappingCreator.invalid r'
  = (MappingCreator.invalid r + length (filter (brokenReference d) l))%nat
  /\ MappingCreator.valid r'
     = (MappingCreator.valid r
        + length (filter (fun m => negb (brokenReference d m)) l))%nat
  /\ (forall i, In i (MappingCreator.issues r) -> In i (MappingCreator.issues r'))
  /\ (forall m, In m l -> brokenReference d m = true ->
                exists i,
                  In i (MappingCreator.issues r')
                  /\ MappingCreator.issue_mapping_id i = CodeMapping.id m
                  /\ (MappingCreator.issue_text i
                      = "NAMASTE code not found or inactive"%string
                      \/ MappingCreator.issue_text i
                         = "ICD-11 code not found or inactive"%string)).
Proof.
  revert r. induction l as [|m l IH]; intros r; simpl.
  - repeat split; try lia; try tauto.
  - specialize (IH (MappingCreator.validateStep calculateMappingConfidence d r m)).
    simpl in IH. destruct IH as (Hinv & Hval & Hmono & Hiss).
    destruct (brokenReference d m) eqn:Hb; simpl.
    + destruct (validateStep_broken r m Hb) as (Hi & Hv & i & Hissues & Hid & Htext).
      rewrite Hinv, Hval, Hi, Hv. repeat split; try lia.
      * intros j Hj. apply Hmono. rewrite Hissues. apply in_or_app. now left.
      * intros m' [<- | Hm'] Hb'.
        -- exists i. split; [|now split].
           apply Hmono. rewrite Hissues. apply in_or_app. right. now left.
        -- now apply Hiss.
    + destruct (validateStep_sound r m Hb) as (Hi & Hv & more & Hissues).
      rewrite Hinv, Hval, Hi, Hv. repeat split; try lia.
      * intros j Hj. apply Hmono. rewrite Hissues. apply in_or_app. now left.
      * intros m' [<- | Hm'] Hb'; [congruence | now apply Hiss].
Qed.

End ValidationFacts.

(** C7.  The bulk validation leaves the creator and its store exactly as
    they were.  Its invalid count is the number of active mappings whose
    source or target row is missing or inactive, its valid count the number
    of the others, and each such mapping has an issue recorded under its
    key while it is still stored and still active.  The single-record
    validation of the service changes nothing either and reports such a
    mapping as not valid, with an issue. *)
Theorem validateMappings_reports_only
        (calculateMappingConfidence : string -> string -> Q)
        (s : MappingCreator.state) :
  let result := MappingCreator.validateMappings calculateMappingConfidence s in
  let d := MappingCreator.db s in
  let mappings := MappingCreator.activeMappings d in
  snd result = s
  /\ MappingCreator.invalid (fst result)
     = length (filter (brokenReference d) mappings)
  /\ MappingCreator.valid (fst result)
     = length (filter (fun m => negb (brokenReference d m)) mappings)
  /\ (forall m,
         In m mappings -> brokenReference d m = true ->
         (exists i,
             In i (MappingCreator.issues (fst result))
             /\ MappingCreator.issue_mapping_id i = CodeMapping.id m
             /\ (MappingCreator.issue_text i
                 = "NAMASTE code not found or inactive"%string
                 \/ MappingCreator.issue_text i
                    = "ICD-11 code not found or inactive"%string))
         /\ In m (code_mappings (MappingCreator.db (snd result)))
         /\ CodeMapping.is_active m = true)
  /\ (forall (mappingId : Z) (d0 : Db),
         snd (MappingService.validateMapping calculateMappingConfidence mappingId d0)
         = d0)
  /\ (forall (mappingId : Z) (d0 : Db) (m : CodeMapping.row),
         find (fun x => (CodeMapping.id x =? mappingId)%Z) (code_mappings d0) = Some m ->
         brokenReference d0 m = true ->
         exists v,
           fst (MappingService.validateMapping calculateMappingConfidence mappingId d0)
           = Ok v
           /\ MappingService.is_valid v = false
           /\ MappingService.issues v <> []).
Proof.
  intros result d mappings. subst result. unfold MappingCreator.validateMappings.
  cbn [fst snd]. fold d. fold mappings.
  destruct (validate_loop calculateMappingConfidence d mappings
                          {| MappingCreator.valid := 0;
                             MappingCreator.invalid := 0;
                             MappingCreator.issues := [] |})
    as (Hinv & Hval & _ & Hiss).
  simpl in Hinv, Hval.
  split; [reflexivity|]. split; [exact Hinv|]. split; [exact Hval|].
  split; [|split].
  - intros m Hm Hb. split; [now apply Hiss|].
    unfold mappings, MappingCreator.activeMappings, Sequelize.findAll in Hm.
    apply filter_In in Hm. destruct Hm as [Hin Hact]. split; [exact Hin|].
    now destruct (CodeMapping.is_active m).
  - intros mappingId d0. unfold MappingService.validateMapping.
    now destruct (find _ _).
  - intros mappingId d0 m Hfind Hb. unfold MappingService.validateMapping.
    rewrite Hfind. eexists. split; [reflexivity|]. cbn [MappingService.is_valid
                                                       MappingService.issues].
    unfold brokenReference in Hb.
    destruct (negb (Sequelize.statusActive NamesteCode.status _)) eqn:Hn.
    + split; [reflexivity | discriminate].
    + simpl in Hb. rewrite Hb. split; [reflexivity | discriminate].
Qed.

Lemma validateMappings_reports_only_witness :
  (exists i,
      In i (MappingCreator.issues
              (fst (MappingCreator.validateMappings Helpers.calculateMappingConfidence
                                                    (freshCreator staleDb))))
      /\ MappingCreator.issue_mapping_id i = 1%Z
      /\ (MappingCreator.issue_text i = "NAMASTE code not found or inactive"%string
          \/ MappingCreator.issue_text i = "ICD-11 code not found or inactive"%string))
  /\ In sampleMapping (code_mappings staleDb)
  /\ CodeMapping.is_active sampleMapping = true.
Proof.
  apply (proj1 (proj2 (proj2 (proj2 (validateMappings_reports_only
                                       Helpers.calculateMappingConfidence
                                       (freshCreator staleDb)))))
               sampleMapping).
  - simpl. now left.
  - reflexivity.
Defined.

(** ** Translation *)

Lemma mapJoined_no_Error {A : Type} (details : CodeMapping.row -> option A)
      (f : CodeMapping.row -> A -> FhirService.translation)
      (mappings : list CodeMapping.row) (message : string) :
  FhirService.mapJoined details f mappings <> Throw (Error message).
Proof.
  induction mappings as [|m rest IH]; simpl; [discriminate|].
  destruct (details m); [|discriminate].
  destruct (FhirService.mapJoined details f rest) as [ts|e]; [discriminate|].
  intros H. apply IH. exact H.
Qed.

(** C5.  For a system identifier that contains "namaste", the translation
    raises "Source code not found" exactly when no active entry has the
    code, and returns the empty list when the entry exists and no active
    mapping starts from it; likewise, with the classification table, for an
    identifier that contains "icd" and not "namaste"; for an identifier
    that contains neither it raises "Unsupported code system". *)
Theorem translateCode_outcomes
        (system code : string) (targetSystem : option string) (d : Db) :
  (Js.includes system "namaste" = true ->
   (FhirService.translateCode system code targetSystem d
    = Throw (Error "Source code not found")
    <-> Sequelize.findOne (Sequelize.activeNamaste code) (namaste_codes d) = None)
   /\ (Sequelize.findOne (Sequelize.activeNamaste code) (namaste_codes d) <> None ->
       Sequelize.findAll (FhirService.activeFrom code) (code_mappings d) = [] ->
       FhirService.translateCode system code targetSystem d = Ok []))
  /\
  (Js.includes system "namaste" = false -> Js.includes system "icd" = true ->
   (FhirService.translateCode system code targetSystem d
    = Throw (Error "Source code not found")
    <-> Sequelize.findOne (FhirService.activeIcdId code) (icd11_codes d) = None)
   /\ (Sequelize.findOne (FhirService.activeIcdId code) (icd11_codes d) <> None ->
       Sequelize.findAll (FhirService.activeTo code) (code_mappings d) = [] ->
       FhirService.translateCode system code targetSystem d = Ok []))
  /\
  (Js.includes system "namaste" = false -> Js.includes system "icd" = false ->
   FhirService.translateCode system code targetSystem d
   = Throw (Error "Unsupported code system")).
Proof.
  unfold FhirService.translateCode. split; [|split].
  - intros ->. destruct (Sequelize.findOne (Sequelize.activeNamaste code) _) as [src|].
    + split.
      * split; [|discriminate]. intros H. now apply mapJoined_no_Error in H.
      * intros _ ->. reflexivity.
    + split; [tauto | congruence].
  - intros -> ->. destruct (Sequelize.findOne (FhirService.activeIcdId code) _) as [tgt|].
    + split.
      * split; [|discriminate]. intros H. now apply mapJoined_no_Error in H.
      * intros _ ->. reflexivity.
    + split; [tauto | congruence].
  - intros -> ->. reflexivity.
Qed.

Lemma translateCode_outcomes_witness :
  FhirService.translateCode "http://terminology.hl7.org/CodeSystem/namaste-ayurveda"
                            "NAM001" None sampleDb = Ok [].
Proof.
  apply (proj1 (translateCode_outcomes
                  "http://terminology.hl7.org/CodeSystem/namaste-ayurveda"
                  "NAM001" None sampleDb)).
  - reflexivity.
  - discriminate.
  - reflexivity.
Defined.

(** ** Suggestions *)



Section SuggestionFacts.

Variable titleLeb : string -> string -> bool.
Hypothesis titleLeb_total : forall a b, titleLeb a b = true \/ titleLeb b a = true.





End SuggestionFacts.




(** The same two suggestions whatever the scorer: the list is in title
    order, so it ascends in confidence as soon as the scorer prefers the
    identical title. *)
Lemma findSuggestedMappings_title_order
      (calculateMappingConfidence : string -> string -> Q) :
  exists s1 s2,
    MappingService.findSuggestedMappings calculateMappingConfidence
                                         MappingService.binaryLike String.leb
                                         "NAM002" (Some 5%nat) suggestionDb
    = Ok [s1; s2]
    /\ MappingService.confidence_score s1
       = calculateMappingConfidence "vata dosha"%string "my vata"%string
    /\ MappingService.confidence_score s2
       = calculateMappingConfidence "vata dosha"%string "vata dosha"%string.
Proof.
  do 2 eexists. split; [reflexivity|]. split; reflexivity.
Qed.

(** Without an argument the automatic run uses the threshold 0.7. *)
Lemma createAutomaticMappings_default
      (calculateMappingConfidence : string -> string -> Q)
      (toFixed2 : Q -> string) (s : MappingCreator.state) :
  MappingCreator.createAutomaticMappings calculateMappingConfidence toFixed2 None s
  = MappingCreator.createAutomaticMappings calculateMappingConfidence toFixed2
                                           (Some 0.7%Q) s.
Proof. reflexivity. Qed.

(* ================================================================== *)
(** * Further properties of the scorer and of the relation heuristic *)

Lemma toLowerCase_truthy (a b : string) :
  Js.toLowerCase a = Js.toLowerCase b -> Js.truthy (Some a) = Js.truthy (Some b).
Proof. destruct a, b; simpl; intros H; try reflexivity; discriminate. Qed.

Lemma includes_refl (s : string) : Js.includes s s = true.
Proof.
  apply includes_iff. exists EmptyString, EmptyString. simpl.
  now rewrite append_empty_r.
Qed.

Lemma startsWith_includes (s p : string) :
  Js.startsWith s p = true -> Js.includes s p = true.
Proof.
  intros H. apply startsWith_iff in H. destruct H as [r ->].
  apply includes_iff. now exists EmptyString, r.
Qed.

Lemma overlap_tier_le (q t : string) :
  (Qmax 0.3
        (inject_Z (Z.of_nat (length (matchingWords q t)))
         / inject_Z (Z.of_nat (length (Js.splitWs q))) * 0.6) <= 0.6)%Q.
Proof.
  destruct (overlap_bounds (m := length (matchingWords q t))
                           (n := length (Js.splitWs q))) as [_ H].
  - apply filter_length_le.
  - apply splitWs_length.
  - apply Q.max_lub; [discriminate | exact H].
Qed.

(** X1.  The score depends on its arguments only up to letter case: two
    queries with the same lower-case form and two texts with the same
    lower-case form get the same score. *)
Theorem calculateRelevanceScore_ignores_case (q q' t t' : string) :
  Js.toLowerCase q = Js.toLowerCase q' ->
  Js.toLowerCase t = Js.toLowerCase t' ->
  SearchController.calculateRelevanceScore (Some q) (Some t)
  = SearchController.calculateRelevanceScore (Some q') (Some t').
Proof.
  intros Hq Ht. unfold SearchController.calculateRelevanceScore.
  rewrite (toLowerCase_truthy _ _ Hq), (toLowerCase_truthy _ _ Ht), Hq, Ht.
  reflexivity.
Qed.

Lemma calculateRelevanceScore_ignores_case_witness :
  SearchController.calculateRelevanceScore (Some "VATA"%string)
                                           (Some "Vata Dosha"%string)
  = SearchController.calculateRelevanceScore (Some "vata"%string)
                                             (Some "vata dosha"%string).
Proof.
  apply calculateRelevanceScore_ignores_case; reflexivity.
Defined.

(** X2.  On two non-empty strings the score is 1 exactly when the two are
    equal after lower-casing. *)
Theorem calculateRelevanceScore_perfect_iff (q t : string) :
  q <> EmptyString -> t <> EmptyString ->
  ((SearchController.calculateRelevanceScore (Some q) (Some t) == 1)%Q
   <-> Js.toLowerCase t = Js.toLowerCase q).
Proof.
  intros Hq Ht. rewrite (score_unfold Hq Ht).
  destruct (String.eqb (Js.toLowerCase t) (Js.toLowerCase q)) eqn:Heq.
  - apply String.eqb_eq in Heq. split; [intros _; exact Heq | intros _; reflexivity].
  - apply String.eqb_neq in Heq.
    split; [|intros H; contradiction]. intros H. exfalso.
    destruct (Js.startsWith _ _); [discriminate H|].
    destruct (Js.includes _ _); [discriminate H|].
    pose proof (overlap_tier_le (Js.toLowerCase q) (Js.toLowerCase t)) as Hle.
    rewrite H in Hle. apply Hle. reflexivity.
Qed.

Lemma calculateRelevanceScore_perfect_iff_witness :
  (SearchController.calculateRelevanceScore (Some "Vata Prakopa"%string)
                                            (Some "VATA PRAKOPA"%string) == 1)%Q.
Proof.
  apply (proj2 (@calculateRelevanceScore_perfect_iff
                  "Vata Prakopa"%string "VATA PRAKOPA"%string
                  ltac:(discriminate) ltac:(discriminate))).
  reflexivity.
Defined.

(** X3.  On two non-empty strings the score reaches 0.7 exactly when the
    lower-cased text contains the lower-cased query; every other pair
    scores at most 0.6. *)
Theorem calculateRelevanceScore_contains_iff (q t : string) :
  q <> EmptyString -> t <> EmptyString ->
  ((0.7 <= SearchController.calculateRelevanceScore (Some q) (Some t))%Q
   <-> exists l r, Js.toLowerCase t = (l ++ Js.toLowerCase q ++ r)%string)
  /\ (~ (exists l r, Js.toLowerCase t = (l ++ Js.toLowerCase q ++ r)%string) ->
      (SearchController.calculateRelevanceScore (Some q) (Some t) <= 0.6)%Q).
Proof.
  intros Hq Ht. rewrite (score_unfold Hq Ht).
  destruct (String.eqb (Js.toLowerCase t) (Js.toLowerCase q)) eqn:Heq.
  - apply String.eqb_eq in Heq.
    assert (Hin : exists l r, Js.toLowerCase t = (l ++ Js.toLowerCase q ++ r)%string).
    { apply includes_iff. rewrite Heq. apply includes_refl. }
    split; [split; [intros _; exact Hin | intros _; discriminate] | tauto].
  - destruct (Js.startsWith _ _) eqn:Hpre.
    + apply startsWith_includes, includes_iff in Hpre.
      split; [split; [intros _; exact Hpre | intros _; discriminate] | tauto].
    + destruct (Js.includes _ _) eqn:Hinc.
      * apply includes_iff in Hinc.
        split; [split; [intros _; exact Hinc | intros _; discriminate] | tauto].
      * pose proof (overlap_tier_le (Js.toLowerCase q) (Js.toLowerCase t)) as Hle.
        split; [split|intros _; exact Hle].
        -- intros H. exfalso.
           apply (Qle_not_lt _ _ (Qle_trans _ _ _ H Hle)). reflexivity.
        -- intros H. apply includes_iff in H. congruence.
Qed.

Lemma calculateRelevanceScore_contains_iff_witness :
  (0.7 <= SearchController.calculateRelevanceScore (Some "dosha"%string)
                                                   (Some "Vata Dosha"%string))%Q.
Proof.
  apply (proj1 (@calculateRelevanceScore_contains_iff
                  "dosha"%string "Vata Dosha"%string
                  ltac:(discriminate) ltac:(discriminate))).
  exists "vata "%string, EmptyString. reflexivity.
Defined.

(** X4.  Whatever the regular-expression engine, when the scorer of the
    NAMASTE service returns, its score is at least the score of the search
    controller's copy on the same arguments, and at most 1. *)
Theorem service_score_dominates
        (regexTest : string -> string -> option bool)
        (query text : option string) (score : Q) :
  NamasteService.calculateRelevanceScore regexTest query text
  = NamasteService.Returns score ->
  (SearchController.calculateRelevanceScore query text <= score)%Q
  /\ (score <= 1)%Q.
Proof.
  unfold NamasteService.calculateRelevanceScore,
         SearchController.calculateRelevanceScore.
  destruct query as [q|], text as [t|];
    try (intros H; injection H as <-; split; discriminate).
  destruct (negb _ || negb _); [intros H; injection H as <-; split; discriminate|].
  destruct (String.eqb _ _); [intros H; injection H as <-; split; discriminate|].
  destruct (Js.startsWith _ _); [intros H; injection H as <-; split; discriminate|].
  fold (matchingWords (Js.toLowerCase q) (Js.toLowerCase t)).
  pose proof (overlap_tier_le (Js.toLowerCase q) (Js.toLowerCase t)) as Hle.
  destruct (regexTest _ _) as [[|]|]; [| |discriminate].
  - intros H. injection H as <-. split; [|discriminate].
    destruct (Js.includes _ _); [discriminate|].
    apply Qle_trans with 0.6%Q; [exact Hle | discriminate].
  - destruct (Js.includes _ _); intros H; injection H as <-.
    + split; discriminate.
    + split; [apply Qle_refl|].
      apply Qle_trans with 0.6%Q; [exact Hle | discriminate].
Qed.

Lemma service_score_dominates_witness :
  (SearchController.calculateRelevanceScore (Some "dosha"%string)
                                            (Some "vata dosha"%string) <= 0.8)%Q
  /\ (0.8 <= 1)%Q.
Proof.
  apply (@service_score_dominates NamasteService.literalRegexTest
                                  (Some "dosha"%string) (Some "vata dosha"%string)).
  reflexivity.
Defined.

(** X5.  Swapping source and target swaps narrower and broader and keeps
    equivalent and related. *)
Theorem suggestMappingType_converse (sourceDisplay targetDisplay : string) :
  MappingService.suggestMappingType targetDisplay sourceDisplay
  = converse (MappingService.suggestMappingType sourceDisplay targetDisplay).
Proof.
  unfold MappingService.suggestMappingType.
  set (s := Js.toLowerCase sourceDisplay). set (t := Js.toLowerCase targetDisplay).
  rewrite (String.eqb_sym t s).
  replace (String.eqb s t || Js.includes t s || Js.includes s t)
    with (String.eqb s t || Js.includes s t || Js.includes t s)
    by (destruct (String.eqb s t), (Js.includes s t), (Js.includes t s); reflexivity).
  destruct (String.eqb s t || Js.includes s t || Js.includes t s); [reflexivity|].
  destruct (Nat.ltb_spec (length (Js.splitSpace s)) (length (Js.splitSpace t)));
    destruct (Nat.ltb_spec (length (Js.splitSpace t)) (length (Js.splitSpace s)));
    try reflexivity; lia.
Qed.

(* ================================================================== *)
(** * Further properties of the batch creator *)

Section BatchFacts.

Import Sequelize.

Variable calculateMappingConfidence : string -> string -> Q.





Lemma NoDup_snoc {A : Type} (l : list A) (x : A) :
  NoDup l -> ~ In x l -> NoDup (l ++ [x]).
Proof.
  induction l as [|y l IH]; simpl; intros Hnd Hx.
  - constructor; [intros [] | constructor].
  - inversion Hnd as [|? ? Hy Hl]; subst. constructor.
    + rewrite in_app_iff. simpl. intros [H | [H | []]]; [tauto|].
      apply Hx. now left.
    + apply IH; [assumption | tauto].
Qed.

Lemma samePair_absent (n i : string) (l : list CodeMapping.row) :
  existsb (samePair n i) l = false -> ~ In (n, i) (map pairKey l).
Proof.
  intros Hex Hin. apply in_map_iff in Hin. destruct Hin as [m [Hk Hin]].
  assert (H : existsb (samePair n i) l = true).
  { apply existsb_exists. exists m. split; [assumption|].
    unfold pairKey in Hk. injection Hk as Hn Hi.
    unfold samePair. now rewrite Hn, Hi, !String.eqb_refl. }
  congruence.
Qed.





End BatchFacts.









(* ================================================================== *)
(** * Further properties of the translation *)

Lemma mapJoined_Ok {A : Type} (details : CodeMapping.row -> option A)
      (f : CodeMapping.row -> A -> FhirService.translation)
      (mappings : list CodeMapping.row) (ts : list FhirService.translation) :
  FhirService.mapJoined details f mappings = Ok ts ->
  Forall2 (fun m t => exists x, details m = Some x /\ t = f m x) mappings ts.
Proof.
  revert ts. induction mappings as [|m rest IH]; simpl; intros ts H.
  - injection H as <-. constructor.
  - destruct (details m) as [x|] eqn:Hx; [|discriminate].
    destruct (FhirService.mapJoined details f rest) as [ts'|e]; [|discriminate].
    injection H as <-. constructor; [now exists x | now apply IH].
Qed.

Lemma mapJoined_TypeError {A : Type} (details : CodeMapping.row -> option A)
      (f : CodeMapping.row -> A -> FhirService.translation)
      (mappings : list CodeMapping.row) :
  FhirService.mapJoined details f mappings = Throw TypeError
  <-> exists m, In m mappings /\ details m = None.
Proof.
  induction mappings as [|m rest IH]; simpl.
  - split; [discriminate | intros [m [[] _]]].
  - destruct (details m) as [x|] eqn:Hx.
    + destruct (FhirService.mapJoined details f rest) as [ts|e] eqn:Hrest.
      * split; [discriminate|]. intros [m' [[<- | Hin] Hnone]]; [congruence|].
        assert (H : Ok ts = Throw TypeError) by (apply IH; now exists m').
        discriminate H.
      * split.
        -- intros H. destruct (proj1 IH H) as [m' [Hin Hn]].
           exists m'. split; [now right | assumption].
        -- intros [m' [[<- | Hin] Hnone]]; [congruence|].
           apply IH. now exists m'.
    + split; [intros _; exists m; split; [now left | assumption] | reflexivity].
Qed.

Lemma Forall2_map_eq {A B C : Type} (R : A -> B -> Prop)
      (g : A -> C) (h : B -> C) (l : list A) (l' : list B) :
  (forall a b, R a b -> g a = h b) -> Forall2 R l l' -> map g l = map h l'.
Proof.
  intros Hgh H. induction H as [|a b l l' Hab _ IH]; simpl; [reflexivity|].
  now rewrite (Hgh a b Hab), IH.
Qed.

(** X13.  When the translation returns, it lists one entry per active
    mapping of the code, in the order of the table: from a traditional
    code, the targets' classification ids with the mappings' types; from a
    classification id, the sources' codes with the mappings' types. *)
Theorem translateCode_lists
        (system code : string) (targetSystem : option string) (d : Db)
        (ts : list FhirService.translation) :
  FhirService.translateCode system code targetSystem d = Ok ts ->
  (Js.includes system "namaste" = true
   /\ map (fun t => (FhirService.equivalence t,
                     FhirService.code (FhirService.t_concept t))) ts
      = map (fun m => (CodeMapping.mapping_type m, CodeMapping.icd11_code m))
            (Sequelize.findAll (FhirService.activeFrom code) (code_mappings d)))
  \/ (Js.includes system "namaste" = false
      /\ Js.includes system "icd" = true
      /\ map (fun t => (FhirService.equivalence t,
                        FhirService.code (FhirService.t_concept t))) ts
         = map (fun m => (CodeMapping.mapping_type m, CodeMapping.namaste_code m))
               (Sequelize.findAll (FhirService.activeTo code) (code_mappings d))).
Proof.
  unfold FhirService.translateCode.
  destruct (Js.includes system "namaste").
  - destruct (Sequelize.findOne _ _); [|discriminate].
    intros H. left. split; [reflexivity|]. symmetry.
    apply mapJoined_Ok in H. revert H. apply Forall2_map_eq.
    intros m t [x [_ ->]]. reflexivity.
  - destruct (Js.includes system "icd"); [|discriminate].
    destruct (Sequelize.findOne _ _); [|discriminate].
    intros H. right. split; [reflexivity|]. split; [reflexivity|]. symmetry.
    apply mapJoined_Ok in H. revert H. apply Forall2_map_eq.
    intros m t [x [_ ->]]. reflexivity.
Qed.

Lemma translateCode_lists_witness :
  map (fun t => (FhirService.equivalence t,
                 FhirService.code (FhirService.t_concept t)))
      [ {| FhirService.equivalence := equivalent;
           FhirService.t_concept :=
             {| FhirService.system := "http://id.who.int/icd/entity";
                FhirService.code := "1435254666";
                FhirService.display := "Vata Prakopa" |} |} ]
  = map (fun m => (CodeMapping.mapping_type m, CodeMapping.icd11_code m))
        (Sequelize.findAll (FhirService.activeFrom "NAM001") (code_mappings mappedDb)).
Proof.
  destruct (@translateCode_lists "namaste-ayurveda" "NAM001" None mappedDb _ eq_refl)
    as [[_ H] | [H _]]; [exact H | discriminate H].
Defined.

(** X14.  From a traditional code, the translation fails with a TypeError
    exactly when the code has an active entry and one of its active
    mappings points to a classification id that no row carries. *)
Theorem translateCode_TypeError_iff
        (system code : string) (targetSystem : option string) (d : Db) :
  Js.includes system "namaste" = true ->
  (FhirService.translateCode system code targetSystem d = Throw TypeError
   <-> Sequelize.findOne (Sequelize.activeNamaste code) (namaste_codes d) <> None
       /\ exists m,
           In m (code_mappings d)
           /\ CodeMapping.namaste_code m = code
           /\ CodeMapping.is_active m = true
           /\ Sequelize.icd11CodeDetails d m = None).
Proof.
  intros Hsys. unfold FhirService.translateCode. rewrite Hsys.
  destruct (Sequelize.findOne _ _) as [src|].
  - rewrite mapJoined_TypeError. split.
    + intros [m [Hin Hnone]]. split; [discriminate|].
      apply filter_In in Hin. destruct Hin as [Hin Hact].
      unfold FhirService.activeFrom in Hact. apply andb_true_iff in Hact.
      destruct Hact as [Hcode Hact]. apply String.eqb_eq in Hcode.
      exists m. repeat split; try assumption.
      now destruct (CodeMapping.is_active m).
    + intros [_ [m (Hin & Hcode & Hact & Hnone)]]. exists m. split; [|assumption].
      apply filter_In. split; [assumption|].
      unfold FhirService.activeFrom. rewrite Hcode, Hact, String.eqb_refl.
      reflexivity.
  - split; [discriminate | intros [H _]; now elim H].
Qed.

Lemma translateCode_TypeError_iff_witness :
  FhirService.translateCode "namaste" "NAM001" None
    {| namaste_codes := namaste_codes sampleDb;
       icd11_codes := [];
       code_mappings := [sampleMapping];
       next_mapping_id := 2;
       audit_logs := [] |}
  = Throw TypeError.
Proof.
  apply (proj2 (@translateCode_TypeError_iff
                  "namaste" "NAM001" None
                  {| namaste_codes := namaste_codes sampleDb;
                     icd11_codes := [];
                     code_mappings := [sampleMapping];
                     next_mapping_id := 2;
                     audit_logs := [] |}
                  eq_refl)).
  split; [discriminate|]. exists sampleMapping. repeat split. now left.
Defined.






Lemma translate_forward_codes (system code : string) (targetSystem : option string)
      (d : Db) (ts : list FhirService.translation) :
  Js.includes system "namaste" = true ->
  FhirService.translateCode system code targetSystem d = Ok ts ->
  map (fun t => FhirService.code (FhirService.t_concept t)) ts
  = map CodeMapping.icd11_code
        (Sequelize.findAll (FhirService.activeFrom code) (code_mappings d)).
Proof.
  intros Hsys. unfold FhirService.translateCode. rewrite Hsys.
  destruct (Sequelize.findOne _ _); [|discriminate].
  intros H. symmetry. apply mapJoined_Ok in H. revert H.
  apply Forall2_map_eq. intros m t [x [_ ->]]. reflexivity.
Qed.

Lemma translate_backward_codes (system code : string) (targetSystem : option string)
      (d : Db) (ts : list FhirService.translation) :
  Js.includes system "namaste" = false ->
  FhirService.translateCode system code targetSystem d = Ok ts ->
  map (fun t => FhirService.code (FhirService.t_concept t)) ts
  = map CodeMapping.namaste_code
        (Sequelize.findAll (FhirService.activeTo code) (code_mappings d)).
Proof.
  intros Hsys. unfold FhirService.translateCode. rewrite Hsys.
  destruct (Js.includes system "icd"); [|discriminate].
  destruct (Sequelize.findOne _ _); [|discriminate].
  intros H. symmetry. apply mapJoined_Ok in H. revert H.
  apply Forall2_map_eq. intros m t [x [_ ->]]. reflexivity.
Qed.

(** X16.  The two directions of the translation are converse: when both
    return, a classification id is listed for a traditional code exactly
    when that traditional code is listed for the classification id. *)
Theorem translateCode_converse
        (systemN systemI namasteCode icdId : string)
        (targetN targetI : option string) (d : Db)
        (ts us : list FhirService.translation) :
  Js.includes systemN "namaste" = true ->
  Js.includes systemI "namaste" = false ->
  FhirService.translateCode systemN namasteCode targetN d = Ok ts ->
  FhirService.translateCode systemI icdId targetI d = Ok us ->
  (In icdId (map (fun t => FhirService.code (FhirService.t_concept t)) ts)
   <-> In namasteCode (map (fun t => FhirService.code (FhirService.t_concept t)) us)).
Proof.
  intros HsysN HsysI Hts Hus.
  rewrite (translate_forward_codes _ _ _ _ HsysN Hts).
  rewrite (translate_backward_codes _ _ _ _ HsysI Hus).
  unfold Sequelize.findAll. rewrite !in_map_iff. split.
  - intros [m [Hi Hin]]. apply filter_In in Hin. destruct Hin as [Hin Hact].
    unfold FhirService.activeFrom in Hact. apply andb_true_iff in Hact.
    destruct Hact as [Hn Hact]. apply String.eqb_eq in Hn.
    exists m. split; [assumption|]. apply filter_In. split; [assumption|].
    unfold FhirService.activeTo. now rewrite Hi, Hact, String.eqb_refl.
  - intros [m [Hn Hin]]. apply filter_In in Hin. destruct Hin as [Hin Hact].
    unfold FhirService.activeTo in Hact. apply andb_true_iff in Hact.
    destruct Hact as [Hi Hact]. apply String.eqb_eq in Hi.
    exists m. split; [assumption|]. apply filter_In. split; [assumption|].
    unfold FhirService.activeFrom. now rewrite Hn, Hact, String.eqb_refl.
Qed.

Lemma translateCode_converse_witness :
  In "1435254666"%string
     (map (fun t => FhirService.code (FhirService.t_concept t))
          [ {| FhirService.equivalence := equivalent;
               FhirService.t_concept :=
                 {| FhirService.system := "http://id.who.int/icd/entity";
                    FhirService.code := "1435254666";
                    FhirService.display := "Vata Prakopa" |} |} ])
  <-> In "NAM001"%string
         (map (fun t => FhirService.code (FhirService.t_concept t))
              [ {| FhirService.equivalence := equivalent;
                   FhirService.t_concept :=
                     {| FhirService.system :=
                          "http://terminology.hl7.org/CodeSystem/namaste-ayurveda";
                        FhirService.code := "NAM001";
                        FhirService.display := "Vata Prakopa" |} |} ]).
Proof.
  apply (@translateCode_converse "namaste" "icd" "NAM001" "1435254666"
                                 None None mappedDb);
    reflexivity.
Defined.

(* ================================================================== *)
(** * Updating and deleting a mapping *)

Section UpdateFacts.

Variable k : Z.
Variable set : CodeMapping.row -> CodeMapping.row.
Hypothesis set_id : forall m, CodeMapping.id (set m) = CodeMapping.id m.
Hypothesis set_pair : forall m, pairKey (set m) = pairKey m.


Lemma updateWhereId_pairs (d : Db) :
  map pairKey (code_mappings (MappingController.updateWhereId k set d))
  = map pairKey (code_mappings d).
Proof.
  unfold MappingController.updateWhereId. simpl. rewrite map_map.
  apply map_ext. intros m. now destruct (CodeMapping.id m =? k)%Z.
Qed.

Lemma updateWhereId_others (d : Db) (m : CodeMapping.row) :
  In m (code_mappings d) -> CodeMapping.id m <> k ->
  In m (code_mappings (MappingController.updateWhereId k set d)).
Proof.
  unfold MappingController.updateWhereId. simpl. intros Hin Hid.
  apply in_map_iff. exists m. split; [|assumption].
  destruct (CodeMapping.id m =? k)%Z eqn:Hm; [|reflexivity].
  apply Z.eqb_eq in Hm. contradiction.
Qed.

Lemma updateWhereId_hit (d : Db) (x : CodeMapping.row) :
  In x (code_mappings (MappingController.updateWhereId k set d)) ->
  CodeMapping.id x = k ->
  exists m, In m (code_mappings d) /\ CodeMapping.id m = k /\ x = set m.
Proof.
  unfold MappingController.updateWhereId. simpl. intros Hin Hid.
  apply in_map_iff in Hin. destruct Hin as [m [Hx Hm]].
  destruct (CodeMapping.id m =? k)%Z eqn:Hk.
  - apply Z.eqb_eq in Hk. now exists m.
  - subst x. apply Z.eqb_neq in Hk. contradiction.
Qed.

End UpdateFacts.

(** X17.  Deleting a mapping never removes a row.  An unknown key gives
    404 and changes nothing.  Otherwise the pairs of codes of the table are
    what they were, in the same order, every row with that key is inactive
    afterwards, every row with another key is untouched, and the two code
    tables are not written. *)
Theorem deleteMapping_soft (now id userId : Z) (d : Db) :
  let r := MappingController.deleteMapping now id userId d in
  let d' := snd (fst r) in
  (MappingController.findByPk id d = None ->
   fst (fst r) = MappingController.NotFound "Mapping not found"
   /\ d' = d /\ snd r = [])
  /\
  (forall m, MappingController.findByPk id d = Some m ->
     fst (fst r) = MappingController.Deleted "Mapping deleted successfully"
     /\ map pairKey (code_mappings d') = map pairKey (code_mappings d)
     /\ (forall x, In x (code_mappings d') -> CodeMapping.id x = id ->
                   CodeMapping.is_active x = false)
     /\ (forall x, In x (code_mappings d) -> CodeMapping.id x <> id ->
                   In x (code_mappings d'))
     /\ namaste_codes d' = namaste_codes d
     /\ icd11_codes d' = icd11_codes d).
Proof.
  unfold MappingController.deleteMapping. split.
  - intros ->. simpl. tauto.
  - intros m ->. cbn [fst snd]. repeat split.
    + apply updateWhereId_pairs. reflexivity.
    + intros x Hin Hid.
      destruct (updateWhereId_hit _ _ _ Hin Hid) as [m' [_ [_ ->]]].
      reflexivity.
    + intros x Hin Hid. now apply updateWhereId_others.
Qed.

Lemma deleteMapping_soft_witness :
  fst (fst (MappingController.deleteMapping 0 1 7 mappedDb))
  = MappingController.Deleted "Mapping deleted successfully"
  /\ map pairKey (code_mappings
                    (snd (fst (MappingController.deleteMapping 0 1 7 mappedDb))))
     = map pairKey (code_mappings mappedDb).
Proof.
  destruct (proj2 (deleteMapping_soft 0 1 7 mappedDb) sampleMapping eq_refl)
    as (H1 & H2 & _).
  split; [exact H1 | exact H2].
Defined.

(** X18.  Once a mapping has been deleted, the interactive creation of a
    mapping for the same pair of codes never succeeds and stores nothing:
    the inactive row still holds the pair in the unique index. *)
Theorem deleteMapping_blocks_createMapping
        (calculateMappingConfidence : string -> string -> Q)
        (now now' id userId : Z) (d : Db) (m : CodeMapping.row)
        (req : MappingController.request) (icd11Code : string)
        (target : ICD11Code.row) :
  MappingController.findByPk id d = Some m ->
  MappingController.namaste_code req = Some (CodeMapping.namaste_code m) ->
  MappingController.icd11_code req = Some icd11Code ->
  Sequelize.findOne (Sequelize.activeIcd11 icd11Code) (icd11_codes d) = Some target ->
  ICD11Code.icd_id target = CodeMapping.icd11_code m ->
  let d' := snd (fst (MappingController.deleteMapping now id userId d)) in
  let r := MappingController.createMapping calculateMappingConfidence now' req d' in
  (forall x, fst r <> MappingController.Created x)
  /\ code_mappings (snd r) = code_mappings d'.
Proof.
  intros Hfind Hn Hi Htgt Hid. unfold MappingController.deleteMapping.
  rewrite Hfind. cbn [fst snd].
  assert (Hkey : In (CodeMapping.namaste_code m, ICD11Code.icd_id target)
                    (map pairKey
                         (code_mappings
                            (MappingController.updateWhereId
                               id (MappingController.deactivate now userId) d)))).
  { rewrite updateWhereId_pairs by reflexivity.
    apply in_map_iff. exists m. split.
    - unfold pairKey. now rewrite Hid.
    - unfold MappingController.findByPk in Hfind. apply find_some in Hfind. tauto. }
  unfold MappingController.createMapping. rewrite Hn, Hi.
  destruct (CodeMapping.namaste_code m) as [|a n] eqn:Hcode;
    [split; [discriminate | reflexivity]|].
  destruct icd11Code as [|b i]; [split; [discriminate | reflexivity]|].
  cbn [namaste_codes icd11_codes MappingController.updateWhereId].
  destruct (Sequelize.findOne (Sequelize.activeNamaste _) _);
    [|split; [discriminate | reflexivity]].
  rewrite Htgt.
  destruct (Sequelize.findOne (Sequelize.activePair _ _) _);
    [split; [discriminate | reflexivity]|].
  unfold Sequelize.create.
  destruct (negb (Sequelize.validConfidence _));
    [split; [discriminate | reflexivity]|].
  cbn [CodeMapping.v_namaste_code CodeMapping.v_icd11_code].
  destruct (existsb _ _) eqn:Hex; [split; [discriminate | reflexivity]|].
  exfalso. apply samePair_absent in Hex. contradiction.
Qed.

Lemma deleteMapping_blocks_createMapping_witness :
  (forall x,
      fst (MappingController.createMapping
             Helpers.calculateMappingConfidence 1 (sampleRequest None)
             (snd (fst (MappingController.deleteMapping 0 1 7 mappedDb))))
      <> MappingController.Created x)
  /\ code_mappings
       (snd (MappingController.createMapping
               Helpers.calculateMappingConfidence 1 (sampleRequest None)
               (snd (fst (MappingController.deleteMapping 0 1 7 mappedDb)))))
     = code_mappings (snd (fst (MappingController.deleteMapping 0 1 7 mappedDb))).
Proof.
  apply (@deleteMapping_blocks_createMapping
           Helpers.calculateMappingConfidence 0 1 1 7 mappedDb sampleMapping
           (sampleRequest None) "1435254666"
           {| ICD11Code.icd_id := "1435254666";
              ICD11Code.code := "SK00";
              ICD11Code.title := "Vata Prakopa";
              ICD11Code.module := "tm2";
              ICD11Code.status := active |});
    reflexivity.
Defined.



(* ================================================================== *)
(** * Batch translation *)

Lemma bool_eq_iff (a b : bool) : (a = true <-> b = true) -> a = b.
Proof. destruct a, b; intros [H1 H2]; auto; symmetry; auto. Qed.

Lemma existsb_eqb_In (x : string) (l : list string) :
  existsb (String.eqb x) l = true <-> In x l.
Proof.
  rewrite existsb_exists. split.
  - intros [y [Hin Heq]]. apply String.eqb_eq in Heq. now subst y.
  - intros Hin. exists x. split; [assumption | apply String.eqb_refl].
Qed.

Lemma filter_filter {A : Type} (f g : A -> bool) (l : list A) :
  filter f (filter g l) = filter (fun x => g x && f x) l.
Proof.
  induction l as [|x l IH]; simpl; [reflexivity|].
  destruct (g x); simpl; [destruct (f x); now rewrite IH | exact IH].
Qed.

Lemma filter_disjoint_length {A : Type} (f g : A -> bool) (l : list A) :
  (forall x, In x l -> f x = true -> g x = true -> False) ->
  length (filter (fun x => f x || g x) l)
  = (length (filter f l) + length (filter g l))%nat.
Proof.
  induction l as [|x l IH]; simpl; intros Hdis; [reflexivity|].
  assert (IH' := IH (fun y Hy => Hdis y (or_intror Hy))).
  destruct (f x) eqn:Hf, (g x) eqn:Hg; simpl; rewrite IH'; try lia.
  exfalso. apply (Hdis x); auto.
Qed.

Section ObjectFacts.

Variable V : Type.

Lemma assign_new (key : string) (v : V) (obj : list (string * V)) :
  ~ In key (map fst obj) -> MappingController.assign key v obj = obj ++ [(key, v)].
Proof.
  induction obj as [|[k x] rest IH]; simpl; intros Hnot; [reflexivity|].
  destruct (String.eqb k key) eqn:Hk.
  - apply String.eqb_eq in Hk. tauto.
  - rewrite IH; [reflexivity | tauto].
Qed.

Lemma assign_same (key : string) (v : V) (obj : list (string * V)) :
  In key (map fst obj) ->
  (forall v', In (key, v') obj -> v' = v) ->
  MappingController.assign key v obj = obj.
Proof.
  induction obj as [|[k x] rest IH]; simpl; intros Hin Hsame; [contradiction|].
  destruct (String.eqb k key) eqn:Hk.
  - apply String.eqb_eq in Hk. subst k.
    now rewrite (Hsame x (or_introl eq_refl)).
  - rewrite IH; [reflexivity | | intros v' Hv'; apply Hsame; now right].
    destruct Hin as [Hin | Hin]; [|assumption].
    apply String.eqb_neq in Hk. contradiction.
Qed.

Lemma setProp_proto (key : string) (v : V) (obj : list (string * V)) :
  String.eqb key "__proto__" = true -> MappingController.setProp key v obj = obj.
Proof. unfold MappingController.setProp. now intros ->. Qed.

Lemma setProp_other (key : string) (v : V) (obj : list (string * V)) :
  String.eqb key "__proto__" = false ->
  MappingController.setProp key v obj = MappingController.assign key v obj.
Proof. unfold MappingController.setProp. now intros ->. Qed.

Lemma getProp_In (key : string) (obj : list (string * V)) :
  In key (map fst obj) ->
  exists v, MappingController.getProp key obj = Some v /\ In (key, v) obj.
Proof.
  unfold MappingController.getProp.
  induction obj as [|[k x] rest IH]; simpl; intros Hin; [contradiction|].
  destruct (String.eqb k key) eqn:Hk.
  - apply String.eqb_eq in Hk. subst k. exists x. split; [reflexivity | now left].
  - destruct Hin as [Hin | Hin];
      [apply String.eqb_neq in Hk; contradiction|].
    destruct (IH Hin) as [v [Hv Hv']]. exists v. split; [exact Hv | now right].
Qed.

End ObjectFacts.

Section CollectFacts.

Variable column : CodeMapping.row -> string.
Variable entry : CodeMapping.row -> MappingController.batchEntry.
Variable mappings : list CodeMapping.row.

Lemma flatLength_snoc (obj : list (string * list MappingController.batchEntry))
      (key : string) (v : list MappingController.batchEntry) :
  MappingController.flatLength (obj ++ [(key, v)])
  = (MappingController.flatLength obj + length v)%nat.
Proof.
  unfold MappingController.flatLength.
  rewrite map_app, concat_app, length_app. simpl. now rewrite app_nil_r.
Qed.

Lemma collect_fold (codes : list string)
      (obj : list (string * list MappingController.batchEntry)) :
  (forall k v, In (k, v) obj ->
               v = map entry (filter (fun m => String.eqb (column m) k) mappings)) ->
  MappingController.flatLength obj
  = length (filter (fun m => existsb (String.eqb (column m)) (map fst obj))
                   mappings) ->
  let obj' :=
    fold_left
      (fun results code =>
         MappingController.setProp
           code
           (map entry (filter (fun m => String.eqb (column m) code) mappings))
           results)
      codes obj in
  (forall k v, In (k, v) obj' ->
               v = map entry (filter (fun m => String.eqb (column m) k) mappings))
  /\ MappingController.flatLength obj'
     = length (filter (fun m => existsb (String.eqb (column m)) (map fst obj'))
                      mappings)
  /\ (forall k, In k (map fst obj')
                <-> In k (map fst obj) \/ (In k codes /\ k <> "__proto__"%string)).
Proof.
  revert obj. induction codes as [|code rest IH]; intros obj Hvals Hlen;
    cbn [fold_left].
  - repeat split; try assumption; [tauto | intros [H | [[] _]]; exact H].
  - destruct (String.eqb code "__proto__") eqn:Hproto.
    + rewrite setProp_proto by exact Hproto.
      destruct (IH obj Hvals Hlen) as (H1 & H2 & H3).
      repeat split; try assumption.
      * intros H. apply H3 in H. destruct H as [H | [H Hk]]; [now left|].
        right. split; [now right | assumption].
      * intros [H | [[<- | H] Hk]].
        -- apply H3. now left.
        -- apply String.eqb_eq in Hproto. contradiction.
        -- apply H3. right. now split.
    + rewrite setProp_other by exact Hproto.
      set (v := map entry (filter (fun m => String.eqb (column m) code) mappings)).
      destruct (in_dec string_dec code (map fst obj)) as [Hin | Hnot].
      * rewrite assign_same; [| assumption | intros v' Hv'; now apply Hvals].
        destruct (IH obj Hvals Hlen) as (H1 & H2 & H3).
        repeat split; try assumption.
        -- intros H. apply H3 in H. destruct H as [H | [H Hk]]; [now left|].
           right. split; [now right | assumption].
        -- intros [H | [[<- | H] Hk]].
           ++ apply H3. now left.
           ++ apply H3. now left.
           ++ apply H3. right. now split.
      * rewrite assign_new by assumption.
        destruct (IH (obj ++ [(code, v)])) as (H1 & H2 & H3).
        -- intros k x Hx. apply in_app_or in Hx.
           destruct Hx as [Hx | [Hx | []]]; [now apply Hvals|].
           injection Hx as <- <-. reflexivity.
        -- rewrite flatLength_snoc, Hlen. unfold v. rewrite length_map.
           rewrite map_app. simpl.
           rewrite <- filter_disjoint_length.
           ++ f_equal. apply filter_ext. intros m.
              rewrite existsb_app. simpl. now rewrite orb_false_r.
           ++ intros m _ Hf Hg. apply existsb_eqb_In in Hf.
              apply String.eqb_eq in Hg. congruence.
        -- repeat split; try assumption.
           ++ intros H. apply H3 in H. rewrite map_app, in_app_iff in H. simpl in H.
              destruct H as [[H | [<- | []]] | [H Hk]].
              ** now left.
              ** right. split; [now left|]. apply String.eqb_neq. exact Hproto.
              ** right. split; [now right | assumption].
           ++ intros H. apply H3. rewrite map_app, in_app_iff. simpl.
              destruct H as [H | [[<- | H] Hk]]; [tauto | tauto |].
              right. now split.
Qed.

(** The object built by [codes.forEach]. *)
Lemma collect_spec (codes : list string) :
  let obj := MappingController.collect column entry mappings codes in
  (forall k v, In (k, v) obj ->
               v = map entry (filter (fun m => String.eqb (column m) k) mappings))
  /\ MappingController.flatLength obj
     = length (filter (fun m => existsb (String.eqb (column m)) codes
                                && negb (String.eqb (column m) "__proto__"))
                      mappings)
  /\ (forall k, In k (map fst obj) <-> In k codes /\ k <> "__proto__"%string).
Proof.
  unfold MappingController.collect.
  destruct (collect_fold codes []) as (H1 & H2 & H3).
  - intros k v [].
  - simpl. induction mappings as [|m l IH]; simpl; [reflexivity | exact IH].
  - cbv zeta. split; [exact H1|]. split.
    + rewrite H2. f_equal. apply filter_ext. intros m. apply bool_eq_iff.
      rewrite existsb_eqb_In, H3, andb_true_iff, negb_true_iff,
        existsb_eqb_In, String.eqb_neq.
      simpl. tauto.
    + intros k. rewrite H3. simpl. tauto.
Qed.

End CollectFacts.

Lemma requested_filter (column : CodeMapping.row -> string) (codes : list string)
      (all : list CodeMapping.row) :
  filter (fun m => existsb (String.eqb (column m)) codes
                   && negb (String.eqb (column m) "__proto__"))
         (Sequelize.findAll (MappingController.activeIn column codes) all)
  = filter (requested column codes) all.
Proof.
  unfold Sequelize.findAll. rewrite filter_filter. apply filter_ext. intros m.
  unfold MappingController.activeIn, requested.
  destruct (existsb _ codes), (Bool.eqb _ true), (negb _); reflexivity.
Qed.

(** X20.  A batch translation that is answered was asked for between 1
    and 50 codes in one of the two supported directions, and its
    total_mappings_found is the number of active mappings whose code in
    the source column is among the requested codes: a code requested twice
    is counted once, and the code [__proto__] is never counted. *)
Theorem batchTranslate_total
        (req : MappingController.batchRequest) (d : Db)
        (r : MappingController.batchResult)
        (calls : list MappingController.auditCall) :
  MappingController.batchTranslate req d = (MappingController.BatchOk r, calls) ->
  exists codes,
    MappingController.codes req = Some codes
    /\ (1 <= length codes)%nat /\ (length codes <= 50)%nat
    /\ MappingController.total_requested r = length codes
    /\ ((MappingController.source_system req = Some "namaste"%string
         /\ MappingController.target_system req = Some "icd11"%string
         /\ MappingController.total_mappings_found r
            = length (filter (requested CodeMapping.namaste_code codes)
                             (code_mappings d)))
        \/ (MappingController.source_system req = Some "icd11"%string
            /\ MappingController.target_system req = Some "namaste"%string
            /\ MappingController.total_mappings_found r
               = length (filter (requested CodeMapping.icd11_code codes)
                                (code_mappings d)))).
Proof.
  unfold MappingController.batchTranslate.
  destruct (MappingController.codes req) as [[|c0 cs]|]; try discriminate.
  destruct (Nat.ltb_spec 50 (length (c0 :: cs))) as [Hbig | Hsmall];
    [discriminate|].
  destruct (negb _ || negb _); [discriminate|].
  destruct (MappingController.source_system req) as [src|]; [|discriminate].
  destruct (MappingController.target_system req) as [tgt|]; [|discriminate].
  destruct (String.eqb src "namaste" && String.eqb tgt "icd11") eqn:Hfwd.
  - apply andb_true_iff in Hfwd. destruct Hfwd as [Hs Ht].
    apply String.eqb_eq in Hs, Ht. subst src tgt.
    intros H. injection H as <- _. exists (c0 :: cs).
    repeat split; [simpl; lia | exact Hsmall |]. left. repeat split.
    cbn [MappingController.total_mappings_found].
    rewrite (proj1 (proj2 (collect_spec _ _ _ _))).
    apply f_equal. apply requested_filter.
  - destruct (String.eqb src "icd11" && String.eqb tgt "namaste") eqn:Hbwd;
      [|discriminate].
    apply andb_true_iff in Hbwd. destruct Hbwd as [Hs Ht].
    apply String.eqb_eq in Hs, Ht. subst src tgt.
    intros H. injection H as <- _. exists (c0 :: cs).
    repeat split; [simpl; lia | exact Hsmall |]. right. repeat split.
    cbn [MappingController.total_mappings_found].
    rewrite (proj1 (proj2 (collect_spec _ _ _ _))).
    apply f_equal. apply requested_filter.
Qed.

Lemma batchTranslate_total_witness :
  exists codes,
    MappingController.codes sampleBatchRequest = Some codes
    /\ (1 <= length codes)%nat /\ (length codes <= 50)%nat
    /\ 3%nat = length codes
    /\ ((MappingController.source_system sampleBatchRequest = Some "namaste"%string
         /\ MappingController.target_system sampleBatchRequest = Some "icd11"%string
         /\ 1%nat = length (filter (requested CodeMapping.namaste_code codes)
                                   (code_mappings mappedDb)))
        \/ (MappingController.source_system sampleBatchRequest = Some "icd11"%string
            /\ MappingController.target_system sampleBatchRequest
               = Some "namaste"%string
            /\ 1%nat = length (filter (requested CodeMapping.icd11_code codes)
                                      (code_mappings mappedDb)))).
Proof.
  apply (@batchTranslate_total
           sampleBatchRequest mappedDb
           {| MappingController.total_requested := 3;
              MappingController.total_mappings_found := 1;
              MappingController.results :=
                MappingController.results
                  match fst (MappingController.batchTranslate
                               sampleBatchRequest mappedDb) with
                  | MappingController.BatchOk r => r
                  | MappingController.BatchBadRequest _ =>
                      {| MappingController.total_requested := 0;
                         MappingController.total_mappings_found := 0;
                         MappingController.results := [] |}
                  end |}
           (snd (MappingController.batchTranslate sampleBatchRequest mappedDb))).
  reflexivity.
Defined.

Lemma translate_forward_pairs (system code : string) (targetSystem : option string)
      (d : Db) (ts : list FhirService.translation) :
  Js.includes system "namaste" = true ->
  FhirService.translateCode system code targetSystem d = Ok ts ->
  map (fun t => (FhirService.equivalence t,
                 FhirService.code (FhirService.t_concept t))) ts
  = map (fun m => (CodeMapping.mapping_type m, CodeMapping.icd11_code m))
        (Sequelize.findAll (FhirService.activeFrom code) (code_mappings d)).
Proof.
  intros Hsys. unfold FhirService.translateCode. rewrite Hsys.
  destruct (Sequelize.findOne _ _); [|discriminate].
  intros H. symmetry. apply mapJoined_Ok in H. revert H.
  apply Forall2_map_eq. intros m t [x [_ ->]]. reflexivity.
Qed.

(** X21.  Batch translation and single translation agree: when the
    translation of a traditional code returns and a batch from namaste to
    icd11 asks for that code, the batch's entries for the code carry the
    same targets and mapping types, in the same order. *)
Theorem batchTranslate_agrees_with_translateCode
        (system code : string) (targetSystem : option string) (d : Db)
        (ts : list FhirService.translation)
        (req : MappingController.batchRequest)
        (r : MappingController.batchResult)
        (calls : list MappingController.auditCall) (codes : list string) :
  Js.includes system "namaste" = true ->
  FhirService.translateCode system code targetSystem d = Ok ts ->
  MappingController.batchTranslate req d = (MappingController.BatchOk r, calls) ->
  MappingController.source_system req = Some "namaste"%string ->
  MappingController.codes req = Some codes ->
  In code codes ->
  code <> "__proto__"%string ->
  exists es,
    MappingController.getProp code (MappingController.results r) = Some es
    /\ map (fun e => (MappingController.b_mapping_type e,
                      MappingController.target_code e)) es
       = map (fun t => (FhirService.equivalence t,
                        FhirService.code (FhirService.t_concept t))) ts.
Proof.
  intros Hsys Hts Hbatch Hsrc Hcodes Hin Hproto.
  rewrite (translate_forward_pairs _ _ _ _ Hsys Hts).
  revert Hbatch. unfold MappingController.batchTranslate. rewrite Hcodes, Hsrc.
  destruct codes as [|c0 cs]; [discriminate|].
  destruct (50 <? length (c0 :: cs))%nat; [discriminate|].
  destruct (negb _ || negb _); [discriminate|].
  destruct (MappingController.target_system req) as [tgt|]; [|discriminate].
  cbn [String.eqb Ascii.eqb Bool.eqb andb].
  destruct (String.eqb tgt "icd11"); [|discriminate].
  intros H. injection H as <- _. cbn [MappingController.results].
  destruct (collect_spec CodeMapping.namaste_code (MappingController.icd11Entry d)
                         (Sequelize.findAll
                            (MappingController.activeIn CodeMapping.namaste_code
                                                        (c0 :: cs))
                            (code_mappings d))
                         (c0 :: cs)) as (Hvals & _ & Hkeys).
  destruct (@getProp_In _ code _ (proj2 (Hkeys code) (conj Hin Hproto)))
    as [es [Hget Hes]].
  exists es. split; [exact Hget|]. rewrite (Hvals _ _ Hes).
  rewrite map_map. cbn [MappingController.b_mapping_type
                          MappingController.target_code
                          MappingController.icd11Entry].
  unfold Sequelize.findAll. rewrite filter_filter. f_equal.
  apply filter_ext. intros m.
  unfold MappingController.activeIn, FhirService.activeFrom.
  destruct (String.eqb (CodeMapping.namaste_code m) code) eqn:Hm.
  - apply String.eqb_eq in Hm.
    assert (Hex : existsb (String.eqb (CodeMapping.namaste_code m)) (c0 :: cs) = true).
    { apply existsb_eqb_In. now rewrite Hm. }
    rewrite Hex. simpl. now rewrite andb_true_r.
  - now rewrite andb_false_r.
Qed.

Lemma batchTranslate_agrees_with_translateCode_witness :
  exists es,
    MappingController.getProp
      "NAM001"
      (MappingController.results
         match fst (MappingController.batchTranslate sampleBatchRequest mappedDb) with
         | MappingController.BatchOk r => r
         | MappingController.BatchBadRequest _ =>
             {| MappingController.total_requested := 0;
                MappingController.total_mappings_found := 0;
                MappingController.results := [] |}
         end)
    = Some es
    /\ map (fun e => (MappingController.b_mapping_type e,
                      MappingController.target_code e)) es
       = [(equivalent, "1435254666"%string)].
Proof.
  apply (@batchTranslate_agrees_with_translateCode
           "namaste" "NAM001" None mappedDb
           [ {| FhirService.equivalence := equivalent;
                FhirService.t_concept :=
                  {| FhirService.system := "http://id.who.int/icd/entity";
                     FhirService.code := "1435254666";
                     FhirService.display := "Vata Prakopa" |} |} ]
           sampleBatchRequest _
           (snd (MappingController.batchTranslate sampleBatchRequest mappedDb))
           ["NAM001"; "NAM002"; "NAM001"]%string).
  - reflexivity.
  - reflexivity.
  - reflexivity.
  - reflexivity.
  - reflexivity.
  - simpl. now left.
  - discriminate.
Defined.

(* ================================================================== *)
(** * Validating and importing codes *)

Lemma when_nil (b : bool) (message : string) :
  NamasteCatalog.when b message = [] -> b = false.
Proof. destruct b; [discriminate | reflexivity]. Qed.

Lemma find_existsb {A : Type} (f : A -> bool) (l : list A) :
  find f l = None -> existsb f l = false.
Proof.
  induction l as [|x l IH]; simpl; [reflexivity|].
  destruct (f x); [discriminate | exact IH].
Qed.


Lemma truthy_text (v : option string) :
  Js.truthy v = true ->
  exists s, v = Some s /\ s <> EmptyString /\ NamasteCatalog.textOf v = s.
Proof.
  destruct v as [[|a s]|]; try discriminate. intros _.
  exists (String a s). repeat split. discriminate.
Qed.



Lemma create_Ok (codeData : NamasteCatalog.codeData) (d : Db)
      (r : NamesteCode.row) (d' : Db) :
  NamasteCatalog.create codeData d = (Ok r, d') ->
  NamasteCatalog.code codeData = Some (NamesteCode.code r)
  /\ NamesteCode.status r = active
  /\ NamasteCatalog.knownSystem (NamesteCode.system_type r) = true
  /\ (forall x, In x (namaste_codes d) -> NamesteCode.code x <> NamesteCode.code r)
  /\ namaste_codes d' = namaste_codes d ++ [r]
  /\ icd11_codes d' = icd11_codes d
  /\ code_mappings d' = code_mappings d
  /\ next_mapping_id d' = next_mapping_id d
  /\ audit_logs d' = audit_logs d.
Proof.
  unfold NamasteCatalog.create.
  destruct (NamasteCatalog.code codeData) as [c|]; [|discriminate].
  destruct (NamasteCatalog.display_name codeData) as [n|]; [|discriminate].
  destruct (NamasteCatalog.system_type codeData) as [t|]; [|discriminate].
  destruct (NamasteCatalog.knownSystem t) eqn:Hk; [|discriminate]. simpl.
  destruct (existsb _ (namaste_codes d)) eqn:Hex; [discriminate|].
  intros H. injection H as <- <-. simpl. repeat split; try assumption.
  intros x Hx Heq.
  assert (Hc : existsb (fun r => String.eqb (NamesteCode.code r) c) (namaste_codes d) = true).
  { apply existsb_exists. exists x. split; [exact Hx|]. now apply String.eqb_eq. }
  rewrite Hc in Hex. discriminate.
Qed.

(** Code data that passes the validation is neither a duplicate nor
    refused by the store. *)
Lemma valid_create (codeData : NamasteCatalog.codeData) (d : Db) :
  NamasteCatalog.valid (NamasteCatalog.validateCode codeData d) = true ->
  exists c r d',
    NamasteCatalog.code codeData = Some c
    /\ Sequelize.findOne (fun x => String.eqb (NamesteCode.code x) c)
                         (namaste_codes d) = None
    /\ NamasteCatalog.create codeData d = (Ok r, d').
Proof.
  unfold NamasteCatalog.validateCode. cbn [NamasteCatalog.valid].
  intros Hvalid. apply Nat.eqb_eq, length_zero_iff_nil in Hvalid.
  repeat (apply app_eq_nil in Hvalid;
          let H := fresh "H" in destruct Hvalid as [H Hvalid]; apply when_nil in H).
  apply when_nil in Hvalid.
  apply negb_false_iff in H, H0, H1.
  destruct (truthy_text _ H) as (c & Hc & Hcne & Htc).
  destruct (truthy_text _ H0) as (n & Hn & Hnne & _).
  destruct (truthy_text _ H1) as (t & Ht & _ & Htt).
  rewrite H1, Htt in H2. rewrite H, Htc in Hvalid.
  simpl in H2, Hvalid. apply negb_false_iff in H2.
  destruct (Sequelize.findOne _ (namaste_codes d)) as [ex|] eqn:Hfind in Hvalid;
    [discriminate|].
  exists c. unfold NamasteCatalog.create. rewrite Hc, Hn, Ht, H2.
  rewrite Hfind. unfold Sequelize.findOne in Hfind.
  rewrite (find_existsb _ _ Hfind). simpl. do 2 eexists. repeat split.
Qed.

(** The four ways one turn of the loop of [importCodes] can end. *)
Lemma importOne_cases (validate skip_duplicates : bool)
      (s : NamasteCatalog.importState) (codeData : NamasteCatalog.codeData) :
  let s' := NamasteCatalog.importOne validate skip_duplicates s codeData in
  (exists e,
      NamasteCatalog.s_db s' = NamasteCatalog.s_db s
      /\ NamasteCatalog.s_imported s' = NamasteCatalog.s_imported s
      /\ NamasteCatalog.s_skipped s' = NamasteCatalog.s_skipped s
      /\ NamasteCatalog.s_errors s' = NamasteCatalog.s_errors s ++ [e]
      /\ (validate = true -> isRejected e = true))
  \/ (NamasteCatalog.s_db s' = NamasteCatalog.s_db s
      /\ NamasteCatalog.s_imported s' = NamasteCatalog.s_imported s
      /\ NamasteCatalog.s_skipped s' = S (NamasteCatalog.s_skipped s)
      /\ NamasteCatalog.s_errors s' = NamasteCatalog.s_errors s
      /\ validate = false /\ skip_duplicates = true)
  \/ (exists r,
         NamasteCatalog.create codeData (NamasteCatalog.s_db s)
         = (Ok r, NamasteCatalog.s_db s')
         /\ NamasteCatalog.s_imported s' = S (NamasteCatalog.s_imported s)
         /\ NamasteCatalog.s_skipped s' = NamasteCatalog.s_skipped s
         /\ NamasteCatalog.s_errors s' = NamasteCatalog.s_errors s
         /\ (validate = true ->
             NamasteCatalog.codePattern (NamesteCode.code r) = true)).
Proof.
  unfold NamasteCatalog.importOne. cbv zeta.
  destruct validate; cbn [andb].
  - destruct (NamasteCatalog.valid _) eqn:Hvalid; cbn [negb].
    + assert (Hpat : exists c, NamasteCatalog.code codeData = Some c
                               /\ NamasteCatalog.codePattern c = true).
      { revert Hvalid. unfold NamasteCatalog.validateCode.
        cbn [NamasteCatalog.valid]. intros Hv.
        apply Nat.eqb_eq, length_zero_iff_nil in Hv.
        repeat (apply app_eq_nil in Hv;
                let H := fresh "H" in destruct Hv as [H Hv]; apply when_nil in H).
        apply negb_false_iff in H.
        destruct (truthy_text _ H) as (c & Hc & _ & Htc).
        rewrite H, Htc in H3. simpl in H3. apply negb_false_iff in H3.
        exists c. split; assumption. }
      destruct Hpat as (c0 & Hc0 & Hpat).
      destruct (valid_create _ _ Hvalid) as (c & r & d' & Hc & Hfind & Hcreate).
      rewrite Hc, Hfind, Hcreate. rewrite andb_false_r.
      right. right. exists r. cbn. repeat split. intros _.
      apply create_Ok in Hcreate. destruct Hcreate as [Hcode _].
      rewrite Hc0 in Hcode. injection Hcode as <-. exact Hpat.
    + left. eexists. cbn. repeat split.
  - destruct (skip_duplicates && _) eqn:Hskip.
    + right. left. cbn. apply andb_true_iff in Hskip. tauto.
    + destruct (NamasteCatalog.create codeData _) as [[r|e] d'] eqn:Hcreate.
      * right. right. exists r. cbn. repeat split. discriminate.
      * left. eexists. cbn. repeat split. discriminate.
Qed.

Section ImportFacts.

Variables validate skip_duplicates : bool.

Lemma import_loop (codesArray : list NamasteCatalog.codeData)
      (s : NamasteCatalog.importState) :
  let s' := fold_left (NamasteCatalog.importOne validate skip_duplicates)
                      codesArray s in
  (NamasteCatalog.s_imported s' + NamasteCatalog.s_skipped s'
   + length (NamasteCatalog.s_errors s')
   = NamasteCatalog.s_imported s + NamasteCatalog.s_skipped s
     + length (NamasteCatalog.s_errors s) + length codesArray)%nat
  /\ (exists new errs,
         namaste_codes (NamasteCatalog.s_db s')
         = namaste_codes (NamasteCatalog.s_db s) ++ new
         /\ NamasteCatalog.s_imported s'
            = (NamasteCatalog.s_imported s + length new)%nat
         /\ Forall importedRow new
         /\ NamasteCatalog.s_errors s' = NamasteCatalog.s_errors s ++ errs
         /\ (validate = true ->
             NamasteCatalog.s_skipped s' = NamasteCatalog.s_skipped s
             /\ Forall (fun r => NamasteCatalog.codePattern (NamesteCode.code r) = true) new
             /\ forallb isRejected errs = true))
  /\ icd11_codes (NamasteCatalog.s_db s') = icd11_codes (NamasteCatalog.s_db s)
  /\ code_mappings (NamasteCatalog.s_db s') = code_mappings (NamasteCatalog.s_db s)
  /\ next_mapping_id (NamasteCatalog.s_db s') = next_mapping_id (NamasteCatalog.s_db s)
  /\ audit_logs (NamasteCatalog.s_db s') = audit_logs (NamasteCatalog.s_db s)
  /\ (NoDup (map NamesteCode.code (namaste_codes (NamasteCatalog.s_db s))) ->
      NoDup (map NamesteCode.code (namaste_codes (NamasteCatalog.s_db s')))).
Proof.
  revert s. induction codesArray as [|codeData rest IH]; intros s.
  - cbn. repeat split; try lia; try tauto.
    exists [], []. rewrite !app_nil_r. repeat split; try constructor.
    cbn; lia.
  - intros s'. cbn [fold_left] in s'.
    specialize (IH (NamasteCatalog.importOne validate skip_duplicates s codeData)).
    cbv zeta in IH. fold s' in IH.
    destruct IH as (Hcount & (new & errs & Hnew & Himp & Hrows & Herrs & Hval)
                    & Hicd & Hmap & Hid & Hlog & Huniq).
    destruct (importOne_cases validate skip_duplicates s codeData)
      as [(e & Hd & Hi & Hs & He & Hrej)
         | [(Hd & Hi & Hs & He & Hv & Hk)
           | (r & Hcreate & Hi & Hs & He & Hpat)]].
    + rewrite Hd in *. rewrite Hi, Hs in *. rewrite He in *.
      rewrite length_app in Hcount. cbn in Hcount. cbn [length].
      repeat split; try assumption; try lia.
      exists new, (e :: errs). repeat split; try assumption.
      * rewrite Herrs, <- app_assoc. reflexivity.
      * apply Hval; assumption.
      * apply Hval; assumption.
      * cbn. rewrite (Hrej H). apply Hval; assumption.
    + rewrite Hd in *. rewrite Hi, Hs in *. rewrite He in *.
      cbn [length]. repeat split; try assumption; try lia.
      exists new, errs. repeat split; try assumption;
        intros; subst validate; discriminate.
    + apply create_Ok in Hcreate.
      destruct Hcreate as (_ & Hact & Hknown & Hfresh & Hcodes & Hicd' & Hmap'
                           & Hid' & Hlog').
      rewrite Hi, Hs, He in *. cbn [length].
      repeat split; try lia; try congruence.
      * exists (r :: new), errs. repeat split.
        -- rewrite Hnew, Hcodes, <- app_assoc. reflexivity.
        -- rewrite Himp. cbn. lia.
        -- constructor; [exact Hact | exact Hrows].
        -- exact Herrs.
        -- apply Hval; assumption.
        -- constructor; [apply Hpat; assumption | apply Hval; assumption].
        -- apply Hval; assumption.
      * intros Hnd. apply Huniq. rewrite Hcodes, map_app. cbn.
        apply NoDup_snoc; [exact Hnd|].
        intros Hin. apply in_map_iff in Hin. destruct Hin as (x & Hx & Hxin).
        exact (Hfresh x Hxin Hx).
Qed.

End ImportFacts.

Lemma firstn_In {A : Type} (n : nat) (l : list A) (x : A) :
  In x (firstn n l) -> In x l.
Proof.
  revert l. induction n as [|n IH]; intros [|y l]; simpl; try tauto.
  intros [H | H]; [left; exact H | right; apply IH; exact H].
Qed.

(** X23.  [importCodes] accounts for every element of the array exactly
    once: the numbers of imported, skipped and failed elements add up to
    the length of the array, whatever the options and the store; and the
    report lists the first ten errors, or all of them when there are
    fewer. *)
Theorem importCodes_counts (codesArray : list NamasteCatalog.codeData)
        (validate skip_duplicates : option bool) (d : Db) :
  let report := fst (NamasteCatalog.importCodes codesArray validate skip_duplicates d) in
  (NamasteCatalog.imported report + NamasteCatalog.skipped report
   + NamasteCatalog.error_count report = length codesArray)%nat
  /\ length (NamasteCatalog.error_details report)
     = Nat.min 10 (NamasteCatalog.error_count report).
Proof.
  unfold NamasteCatalog.importCodes. cbv zeta. cbn [fst snd NamasteCatalog.imported NamasteCatalog.skipped NamasteCatalog.error_count NamasteCatalog.error_details].
  split.
  - match goal with
    | |- context [fold_left (NamasteCatalog.importOne ?v ?k) _ ?s] =>
        destruct (import_loop v k codesArray s) as [Hcount _]
    end.
    cbn in Hcount. exact Hcount.
  - apply length_firstn.
Qed.

(** X24.  [importCodes] only appends to the table of NAMASTE codes: the
    entries stored before are kept in place, as many entries are appended
    as the report counts as imported, each of them is active, and no other
    table changes. *)
Theorem importCodes_appends (codesArray : list NamasteCatalog.codeData)
        (validate skip_duplicates : option bool) (d : Db) :
  let report := fst (NamasteCatalog.importCodes codesArray validate skip_duplicates d) in
  let d' := snd (NamasteCatalog.importCodes codesArray validate skip_duplicates d) in
  (exists new,
      namaste_codes d' = namaste_codes d ++ new
      /\ length new = NamasteCatalog.imported report
      /\ Forall importedRow new)
  /\ icd11_codes d' = icd11_codes d
  /\ code_mappings d' = code_mappings d
  /\ next_mapping_id d' = next_mapping_id d
  /\ audit_logs d' = audit_logs d.
Proof.
  unfold NamasteCatalog.importCodes. cbv zeta. cbn [fst snd NamasteCatalog.imported NamasteCatalog.skipped NamasteCatalog.error_count NamasteCatalog.error_details].
  match goal with
  | |- context [fold_left (NamasteCatalog.importOne ?v ?k) _ ?s] =>
      destruct (import_loop v k codesArray s)
        as (_ & (new & errs & Hnew & Himp & Hrows & _) & Hicd & Hmap & Hid & Hlog & _)
  end.
  cbn in *. repeat split; try assumption.
  exists new. repeat split; [exact Hnew | now rewrite Himp | exact Hrows].
Qed.

(** X25.  [importCodes] keeps the codes of the table distinct: no option
    and no input makes it store a code twice. *)
Theorem importCodes_unique_codes (codesArray : list NamasteCatalog.codeData)
        (validate skip_duplicates : option bool) (d : Db) :
  uniqueCodes d ->
  uniqueCodes (snd (NamasteCatalog.importCodes codesArray validate skip_duplicates d)).
Proof.
  unfold uniqueCodes, NamasteCatalog.importCodes. cbv zeta. cbn [fst snd NamasteCatalog.imported NamasteCatalog.skipped NamasteCatalog.error_count NamasteCatalog.error_details].
  match goal with
  | |- context [fold_left (NamasteCatalog.importOne ?v ?k) _ ?s] =>
      destruct (import_loop v k codesArray s) as (_ & _ & _ & _ & _ & _ & Huniq)
  end.
  exact Huniq.
Qed.

Lemma sampleDb_uniqueCodes : uniqueCodes sampleDb.
Proof.
  unfold uniqueCodes. cbn.
  repeat (constructor; [cbn; intuition discriminate|]). constructor.
Qed.

Lemma importCodes_unique_codes_witness :
  uniqueCodes sampleDb
  /\ uniqueCodes (snd (NamasteCatalog.importCodes sampleImport None (Some false) sampleDb)).
Proof.
  split; [exact sampleDb_uniqueCodes|].
  apply (importCodes_unique_codes sampleImport None (Some false) sampleDb_uniqueCodes).
Defined.



(* ================================================================== *)
(** * The walk to the ancestors *)

Lemma getAncestors_step (fuel : nat) (table : list NamasteHierarchy.node)
      (code : NamasteHierarchy.node) (ancestors : list NamasteHierarchy.node) :
  NamasteHierarchy.getAncestors (S fuel) table code ancestors
  = match parentOf table code with
    | Some parent =>
        NamasteHierarchy.getAncestors fuel table parent (parent :: ancestors)
    | None => Some ancestors
    end.
Proof.
  unfold parentOf. cbn [NamasteHierarchy.getAncestors].
  destruct (NamasteHierarchy.parent_code code) as [[|a p]|]; reflexivity.
Qed.

Lemma parentOf_Some (table : list NamasteHierarchy.node)
      (n parent : NamasteHierarchy.node) :
  parentOf table n = Some parent ->
  In parent table
  /\ NamesteCode.status (NamasteHierarchy.row parent) = active
  /\ NamasteHierarchy.parent_code n
     = Some (NamesteCode.code (NamasteHierarchy.row parent)).
Proof.
  unfold parentOf.
  destruct (NamasteHierarchy.parent_code n) as [[|a p]|]; try discriminate.
  intros Hfind. apply find_some in Hfind. destruct Hfind as [Hin Hact].
  unfold NamasteHierarchy.activeCode, Sequelize.activeNamaste in Hact.
  apply andb_true_iff in Hact. destruct Hact as [Hcode Hst].
  apply String.eqb_eq in Hcode. rewrite Hcode.
  repeat split; [exact Hin|].
  now destruct (NamesteCode.status (NamasteHierarchy.row parent)).
Qed.

(** X27.  On a table whose parent links descend along a rank,
    [getAncestors] returns as soon as the fuel exceeds the rank of the
    code; it puts the ancestors found in front of the ones passed in, the
    topmost first and the direct parent last, each of them an active entry
    of the table, and the topmost one has no active parent. *)
Theorem getAncestors_returns (table : list NamasteHierarchy.node)
        (rank : NamasteHierarchy.node -> nat) (fuel : nat)
        (code : NamasteHierarchy.node) (ancestors : list NamasteHierarchy.node) :
  (forall n parent, In n (code :: table) -> parentOf table n = Some parent ->
                    (rank parent < rank n)%nat) ->
  (rank code < fuel)%nat ->
  exists found,
    NamasteHierarchy.getAncestors fuel table code ancestors
    = Some (found ++ ancestors)
    /\ climbs table code (rev found)
    /\ (length found <= rank code)%nat
    /\ Forall (fun a => In a table
                        /\ NamesteCode.status (NamasteHierarchy.row a) = active)
              found.
Proof.
  intros Hrank.
  assert (Hall : forall n parent, In n table -> parentOf table n = Some parent ->
                                  (rank parent < rank n)%nat)
    by (intros n parent Hn; apply Hrank; right; exact Hn).
  assert (Hcode : forall parent, parentOf table code = Some parent ->
                                 (rank parent < rank code)%nat)
    by (intros parent; apply Hrank; left; reflexivity).
  clear Hrank. revert code ancestors Hcode.
  induction fuel as [|fuel IH]; intros code ancestors Hcode Hfuel; [lia|].
  rewrite getAncestors_step.
  destruct (parentOf table code) as [parent|] eqn:Hparent.
  - destruct (parentOf_Some _ _ Hparent) as (Hin & Hact & _).
    specialize (Hcode parent eq_refl).
    destruct (IH parent (parent :: ancestors)) as (found & Hget & Hclimb & Hlen & Hfound).
    + intros p. apply Hall. exact Hin.
    + lia.
    + exists (found ++ [parent]). rewrite <- app_assoc. split; [exact Hget|].
      rewrite rev_app_distr. cbn [rev app climbs]. rewrite Hparent.
      split; [split; [reflexivity | exact Hclimb]|].
      split; [rewrite length_app; cbn; lia|].
      apply Forall_app. split; [exact Hfound|].
      constructor; [split; assumption | constructor].
  - exists []. cbn. rewrite Hparent. repeat split; [lia | constructor].
Qed.

Lemma getAncestors_returns_witness :
  exists found,
    NamasteHierarchy.getAncestors 3 treeTable
      (hierarchyNode "NAM011" (Some "NAM010"%string)) []
    = Some (found ++ [])
    /\ climbs treeTable (hierarchyNode "NAM011" (Some "NAM010"%string)) (rev found)
    /\ (length found <= 2)%nat
    /\ Forall (fun a => In a treeTable
                        /\ NamesteCode.status (NamasteHierarchy.row a) = active)
              found.
Proof.
  apply (@getAncestors_returns treeTable treeRank 3
           (hierarchyNode "NAM011" (Some "NAM010"%string)) []).
  - intros n parent [<- | [<- | [<- | [<- | []]]]] Hp;
      vm_compute in Hp; try discriminate;
      injection Hp as <-; vm_compute; lia.
  - vm_compute. lia.
Defined.

(** X28.  [getAncestors] never returns when the parent links lead round
    in a circle: from a code of a set of entries each of which has an
    active parent in the set, no amount of fuel is enough. *)
Theorem getAncestors_cycle (table : list NamasteHierarchy.node)
        (circle : NamasteHierarchy.node -> Prop) (fuel : nat)
        (code : NamasteHierarchy.node) (ancestors : list NamasteHierarchy.node) :
  (forall n, circle n ->
             exists parent, parentOf table n = Some parent /\ circle parent) ->
  circle code ->
  NamasteHierarchy.getAncestors fuel table code ancestors = None.
Proof.
  intros Hcircle. revert code ancestors.
  induction fuel as [|fuel IH]; intros code ancestors Hcode; [reflexivity|].
  rewrite getAncestors_step.
  destruct (Hcircle code Hcode) as (parent & Hparent & Hin).
  rewrite Hparent. apply IH. exact Hin.
Qed.

Lemma getAncestors_cycle_witness :
  NamasteHierarchy.getAncestors 1000 cyclicTable
    (hierarchyNode "NAM001" (Some "NAM002"%string)) [] = None.
Proof.
  apply (@getAncestors_cycle cyclicTable onCycle).
  - intros n [<- | [<- | []]]; eexists; (split; [reflexivity|]);
      unfold onCycle; cbn; tauto.
  - unfold onCycle; cbn; tauto.
Defined.

(* ================================================================== *)
(** * What is suggested *)

Section SuggestionRows.

Variable calculateMappingConfidence : string -> string -> Q.
Variables sqlLike titleLeb : string -> string -> bool.

Lemma insertByTitle_In (r x : ICD11Code.row) (rows : list ICD11Code.row) :
  In x (MappingService.insertByTitle titleLeb r rows) <-> x = r \/ In x rows.
Proof.
  induction rows as [|y rest IH]; simpl.
  - intuition.
  - destruct (titleLeb (ICD11Code.title r) (ICD11Code.title y)); simpl.
    + intuition.
    + rewrite IH. intuition.
Qed.

Lemma orderByTitle_In (x : ICD11Code.row) (rows : list ICD11Code.row) :
  In x (MappingService.orderByTitle titleLeb rows) <-> In x rows.
Proof.
  unfold MappingService.orderByTitle.
  induction rows as [|y rest IH]; simpl; [tauto|].
  rewrite insertByTitle_In, IH. intuition.
Qed.

Lemma suggestionWhere_iff (display_name : string) (r : ICD11Code.row) :
  MappingService.suggestionWhere sqlLike
    (MappingService.searchTerms display_name) r = true
  <-> suggestible sqlLike display_name r.
Proof.
  unfold MappingService.suggestionWhere, suggestible, MappingService.searchTerms.
  rewrite !andb_true_iff, existsb_exists, String.eqb_eq.
  assert (Hst : status_eqb (ICD11Code.status r) active = true
                <-> ICD11Code.status r = active)
    by (destruct (ICD11Code.status r); simpl; split; congruence).
  rewrite Hst. split.
  - intros [[(term & Hin & Hlike) Hmod] Hact].
    apply filter_In in Hin. destruct Hin as [Hin Hlen].
    apply Nat.ltb_lt in Hlen.
    split; [exact Hact|]. split; [exact Hmod|]. exists term. tauto.
  - intros (Hact & Hmod & term & Hin & Hlen & Hlike).
    split; [split|]; try assumption. exists term. split; [|exact Hlike].
    apply filter_In. split; [exact Hin|]. now apply Nat.ltb_lt.
Qed.

(** X29.  [findSuggestedMappings] suggests nothing else than what the
    query selects: every suggestion is an active tm2 entry whose title
    contains a word of more than two characters of the display name of the
    source code, which is itself an active entry with the code asked for;
    the suggestion carries the identifier and the title of that entry and
    the mapping type suggested for the two names. *)
Theorem findSuggestedMappings_sound (namasteCode : string) (limit : option nat)
        (d : Db) (suggestions : list MappingService.suggestion)
        (s : MappingService.suggestion) :
  MappingService.findSuggestedMappings calculateMappingConfidence sqlLike
                                       titleLeb namasteCode limit d
  = Ok suggestions ->
  In s suggestions ->
  exists source target,
    In source (namaste_codes d)
    /\ NamesteCode.code source = namasteCode
    /\ NamesteCode.status source = active
    /\ In target (icd11_codes d)
    /\ suggestible sqlLike (NamesteCode.display_name source) target
    /\ MappingService.icd11_code s = ICD11Code.icd_id target
    /\ MappingService.icd11_title s = ICD11Code.title target
    /\ MappingService.suggested_mapping_type s
       = MappingService.suggestMappingType (NamesteCode.display_name source)
                                           (ICD11Code.title target).
Proof.
  unfold MappingService.findSuggestedMappings.
  destruct (Sequelize.findOne _ (namaste_codes d)) as [source|] eqn:Hsrc;
    [|discriminate].
  intros Hok Hs. injection Hok as <-.
  apply in_map_iff in Hs. destruct Hs as (target & <- & Hin).
  apply firstn_In in Hin. apply (proj1 (orderByTitle_In _ _)) in Hin.
  unfold Sequelize.findAll in Hin. apply filter_In in Hin.
  destruct Hin as [Hin Hwhere]. apply suggestionWhere_iff in Hwhere.
  apply find_some in Hsrc. destruct Hsrc as [Hsin Hact].
  unfold Sequelize.activeNamaste in Hact. apply andb_true_iff in Hact.
  destruct Hact as [Hcode Hst]. apply String.eqb_eq in Hcode.
  exists source, target. cbn.
  split; [exact Hsin|]. split; [exact Hcode|].
  split; [now destruct (NamesteCode.status source)|].
  split; [exact Hin|]. split; [exact Hwhere|]. repeat split.
Qed.

Lemma orderByTitle_length (rows : list ICD11Code.row) :
  length (MappingService.orderByTitle titleLeb rows) = length rows.
Proof.
  unfold MappingService.orderByTitle.
  induction rows as [|y rest IH]; simpl; [reflexivity|].
  rewrite <- IH. generalize (fold_right (MappingService.insertByTitle titleLeb) [] rest).
  intros l. induction l as [|z l IHl]; simpl; [reflexivity|].
  destruct (titleLeb _ _); simpl; [reflexivity|]. now rewrite IHl.
Qed.

Lemma firstn_short {A : Type} (n : nat) (l : list A) :
  (length (firstn n l) < n)%nat -> firstn n l = l.
Proof.
  intros Hlen. apply firstn_all2. rewrite length_firstn in Hlen. lia.
Qed.

(** X30.  When [findSuggestedMappings] returns fewer suggestions than the
    limit, nothing was cut off: every active tm2 entry whose title contains
    a word of more than two characters of the display name of the source
    code is among the suggestions, and there are exactly as many
    suggestions as such entries. *)
Theorem findSuggestedMappings_complete (namasteCode : string) (limit : nat)
        (d : Db) (source : NamesteCode.row)
        (suggestions : list MappingService.suggestion) :
  Sequelize.findOne (Sequelize.activeNamaste namasteCode) (namaste_codes d)
  = Some source ->
  MappingService.findSuggestedMappings calculateMappingConfidence sqlLike
                                       titleLeb namasteCode (Some limit) d
  = Ok suggestions ->
  (length suggestions < limit)%nat ->
  (forall target,
      In target (icd11_codes d) ->
      suggestible sqlLike (NamesteCode.display_name source) target ->
      exists s, In s suggestions
                /\ MappingService.icd11_code s = ICD11Code.icd_id target
                /\ MappingService.icd11_title s = ICD11Code.title target)
  /\ length suggestions
     = length (filter (MappingService.suggestionWhere sqlLike
                         (MappingService.searchTerms (NamesteCode.display_name source)))
                      (icd11_codes d)).
Proof.
  unfold MappingService.findSuggestedMappings. intros Hsrc. rewrite Hsrc.
  intros Hok Hlen. injection Hok as <-. rewrite length_map in Hlen.
  rewrite (@firstn_short _ _ _ Hlen). split.
  - intros target Hin Hsug. eexists. split.
    + apply in_map. apply orderByTitle_In. unfold Sequelize.findAll.
      apply filter_In. split; [exact Hin|]. apply suggestionWhere_iff. exact Hsug.
    + split; reflexivity.
  - rewrite length_map, orderByTitle_length. reflexivity.
Qed.

End SuggestionRows.

Lemma findSuggestedMappings_sound_witness :
  exists source target,
    In source (namaste_codes suggestionDb)
    /\ NamesteCode.code source = "NAM002"%string
    /\ NamesteCode.status source = active
    /\ In target (icd11_codes suggestionDb)
    /\ suggestible MappingService.binaryLike (NamesteCode.display_name source) target
    /\ "1435254668"%string = ICD11Code.icd_id target
    /\ "my vata"%string = ICD11Code.title target
    /\ MappingService.suggestMappingType "vata dosha" "my vata"
       = MappingService.suggestMappingType (NamesteCode.display_name source)
                                           (ICD11Code.title target).
Proof.
  apply (@findSuggestedMappings_sound
           Helpers.calculateMappingConfidence MappingService.binaryLike String.leb
           "NAM002"%string (Some 1%nat) suggestionDb
           [ {| MappingService.icd11_code := "1435254668";
                MappingService.icd11_title := "my vata";
                MappingService.confidence_score :=
                  Helpers.calculateMappingConfidence "vata dosha" "my vata";
                MappingService.suggested_mapping_type :=
                  MappingService.suggestMappingType "vata dosha" "my vata" |} ]
           {| MappingService.icd11_code := "1435254668";
              MappingService.icd11_title := "my vata";
              MappingService.confidence_score :=
                Helpers.calculateMappingConfidence "vata dosha" "my vata";
              MappingService.suggested_mapping_type :=
                MappingService.suggestMappingType "vata dosha" "my vata" |}).
  - reflexivity.
  - left. reflexivity.
Defined.

Lemma findSuggestedMappings_complete_witness :
  exists s,
    In s [ {| MappingService.icd11_code := "1435254668";
              MappingService.icd11_title := "my vata";
              MappingService.confidence_score :=
                Helpers.calculateMappingConfidence "vata dosha" "my vata";
              MappingService.suggested_mapping_type :=
                MappingService.suggestMappingType "vata dosha" "my vata" |};
           {| MappingService.icd11_code := "1435254667";
              MappingService.icd11_title := "vata dosha";
              MappingService.confidence_score :=
                Helpers.calculateMappingConfidence "vata dosha" "vata dosha";
              MappingService.suggested_mapping_type :=
                MappingService.suggestMappingType "vata dosha" "vata dosha" |} ]
    /\ MappingService.icd11_code s = ICD11Code.icd_id myVata
    /\ MappingService.icd11_title s = ICD11Code.title myVata.
Proof.
  refine (proj1 (@findSuggestedMappings_complete
                   Helpers.calculateMappingConfidence MappingService.binaryLike
                   String.leb "NAM002"%string 3%nat suggestionDb vataDosha _
                   eq_refl eq_refl _) myVata _ _).
  - vm_compute. lia.
  - cbn. tauto.
  - unfold suggestible. split; [reflexivity|]. split; [reflexivity|].
    exists "vata"%string. split; [vm_compute; tauto|].
    split; [vm_compute; lia | reflexivity].
Defined.
